(** * partstracker: the part-lifecycle core (app_logic.py, data_manager.py)

    A shallow embedding of the turbine parts tracker.  The program keeps
    one JSON document, a dict of named lists of dicts, inside a
    [DataManager]; [app_logic.py] reads and patches that document and
    calls [save_data] after each mutation.

    Python dicts are finite maps with string keys ([gmap string _]), so
    that a key that is absent and a key bound to [None] are different
    records, as they are for the [in] operator of the source.  A failing
    subscript raises [KeyError]; the embedding keeps the exception as a
    result value and keeps the state reached before it was raised. *)

From stdpp Require Import base option list gmap strings fin_maps pretty.
From Stdlib Require Import ZArith Lia.

(** ** Python values and records *)

(** The scalars a record of the document carries: [None], integers and
    strings (ids, serial numbers, dates, descriptions). *)
Inductive value :=
  | VNone
  | VInt (z : Z)
  | VStr (s : string).

Global Instance value_eq_dec : EqDecision value.
Proof. solve_decision. Defined.

Definition value_enc (v : value) : unit + (Z + string) :=
  match v with
  | VNone => inl ()
  | VInt z => inr (inl z)
  | VStr s => inr (inr s)
  end.

Definition value_dec (x : unit + (Z + string)) : value :=
  match x with
  | inl _ => VNone
  | inr (inl z) => VInt z
  | inr (inr s) => VStr s
  end.

Lemma value_dec_enc v : value_dec (value_enc v) = v.
Proof. by destruct v. Qed.

Global Instance value_countable : Countable value :=
  inj_countable' value_enc value_dec value_dec_enc.

(** A record is a dict; the document maps collection names to lists. *)
Abbreviation record := (gmap string value).
Abbreviation Document := (gmap string (list (gmap string value))).

(** [a == b] on the scalars above. *)
Definition py_eq (a b : value) : bool := bool_decide (a = b).

(** [str(v)], as the f-strings of the source format their arguments. *)
Definition py_str (v : value) : string :=
  match v with
  | VNone => "None"
  | VInt z => pretty z
  | VStr s => s
  end.

(** ** Exceptions *)

Inductive exn :=
  | KeyError (k : string)
  | TypeError
  | JSONDecodeError.

Inductive result (A : Type) :=
  | Ok (a : A)
  | Raise (e : exn).
Arguments Ok {A} a.
Arguments Raise {A} e.

Global Instance exn_eq_dec : EqDecision exn.
Proof. solve_decision. Defined.

Global Instance result_eq_dec {A} `{EqDecision A} : EqDecision (result A).
Proof. solve_decision. Defined.

Global Instance result_ret : MRet result := λ A a, Ok a.
Global Instance result_bind : MBind result := λ A B f m,
  match m with
  | Ok a => f a
  | Raise e => Raise e
  end.

(** [r[k]] *)
Definition getitem (r : record) (k : string) : result value :=
  match r !! k with
  | Some v => Ok v
  | None => Raise (KeyError k)
  end.

(** [k in r] *)
Definition has_key (k : string) (r : record) : bool := bool_decide (is_Some (r !! k)).

(** [r.get(k, d)] *)
Definition get_default (r : record) (k : string) (d : value) : value :=
  default d (r !! k).

(** Truth value of an object that is [None] or a dict: [None] and the
    empty dict are false.  [truthy o] is the dict when [o] is true. *)
Definition truthy (o : option record) : option record :=
  match o with
  | Some r => if decide (r = ∅) then None else Some r
  | None => None
  end.

(** ** The helper [_get_next_id] *)

(** [a > b]: defined between two integers and between two strings. *)
Definition py_gt (a b : value) : result bool :=
  match a, b with
  | VInt x, VInt y => Ok (y <? x)%Z
  | VStr x, VStr y => Ok (String.ltb y x)
  | _, _ => Raise TypeError
  end.

(** [max] over a non-empty iteration: the running maximum is replaced by
    an item that compares greater. *)
Fixpoint py_max_from (cur : value) (rest : list value) : result value :=
  match rest with
  | [] => Ok cur
  | x :: rest' =>
      b ← py_gt x cur;
      py_max_from (if b : bool then x else cur) rest'
  end.

(** [v + 1] *)
Definition py_add1 (v : value) : result value :=
  match v with
  | VInt z => Ok (VInt (z + 1))
  | _ => Raise TypeError
  end.

Definition _get_next_id (items_list : list record) (id_key : string) : result value :=
  match (λ item, get_default item id_key (VInt 0)) <$> items_list with
  | [] => Ok (VInt 1)
  | v :: vs => m ← py_max_from v vs; py_add1 m
  end.

(** ** The data manager (data_manager.py) *)

(** What [filepath] holds: no file, a file [json.load] rejects, or a
    file that parses to a document. *)
Inductive file_state :=
  | NoFile
  | Unparsable
  | Json (d : Document).

Global Instance file_state_eq_dec : EqDecision file_state.
Proof. solve_decision. Defined.

(** The effects a caller can observe besides the document: a write of
    the file by [save_data] and a line printed on standard output. *)
Inductive event :=
  | Saved
  | Printed (line : string).

Global Instance event_eq_dec : EqDecision event.
Proof. solve_decision. Defined.

Record DataManager := mkDataManager {
  data : Document;
  file : file_state;
  trace : list event
}.

Global Instance DataManager_eq_dec : EqDecision DataManager.
Proof. solve_decision. Defined.

(** Code that reads and updates the data manager and may raise.  The
    state is returned in both cases: a Python exception undoes nothing. *)
Definition M (A : Type) : Type := DataManager → result A * DataManager.

Global Instance M_ret : MRet M := λ A a dm, (Ok a, dm).
Global Instance M_bind : MBind M := λ A B f m dm,
  match m dm with
  | (Ok a, dm') => f a dm'
  | (Raise e, dm') => (Raise e, dm')
  end.

(** A computation that only reads the document. *)
Definition read {A} (f : Document → result A) : M A := λ dm, (f (data dm), dm).

Definition lift {A} (r : result A) : M A := λ dm, (r, dm).

Definition print (line : string) : M unit := λ dm,
  (Ok (), mkDataManager (data dm) (file dm) (trace dm ++ [Printed line])).

(** [data_manager.data[k]] *)
Definition collection (k : string) : M (list record) := λ dm,
  match data dm !! k with
  | Some l => (Ok l, dm)
  | None => (Raise (KeyError k), dm)
  end.

(** [data_manager.data.get(k, [])] *)
Definition collection_or_empty (d : Document) (k : string) : list record :=
  default [] (d !! k).

(** [data_manager.data[k].append(x)], for a key that is present. *)
Definition append_to (k : string) (x : record) : M unit := λ dm,
  (Ok (), mkDataManager (alter (λ l, l ++ [x]) k (data dm)) (file dm) (trace dm)).

(** [data_manager.data[k][i][field] = v]: the dict at position [i] of
    the list is patched in place.  Every dict of the document is a
    distinct object (they come from [json.load] or from a dict display
    in an add function), so no other position changes. *)
Definition set_field (k : string) (i : nat) (field : string) (v : value) : M unit := λ dm,
  (Ok (), mkDataManager (alter (alter (insert field v) i) k (data dm)) (file dm) (trace dm)).

Definition save_data : M unit := λ dm,
  (Ok (), mkDataManager (data dm) (Json (data dm)) (trace dm ++ [Saved])).

(** The document [load_data] builds when the file does not exist. *)
Definition default_data : Document :=
  {[ "turbines" := [];
     "part_masters" := [];
     "part_instances" := [];
     "installation_records" := [] ]}.

Definition load_data : M unit := λ dm,
  match file dm with
  | Json d => (Ok (), mkDataManager d (file dm) (trace dm))
  | Unparsable => (Raise JSONDecodeError, dm)
  | NoFile => save_data (mkDataManager default_data (file dm) (trace dm))
  end.

(** [DataManager(filepath)]: [data] is [None] until [load_data] sets it;
    the empty map stands for that unset attribute. *)
Definition DataManager_init (f : file_state) : result unit * DataManager :=
  load_data (mkDataManager ∅ f []).

(** ** The lifecycle core (app_logic.py) *)

Section app_logic.

(** [datetime.date.today().isoformat()] and
    [datetime.datetime.now().isoformat()] at the time of the call. *)
Variable today : string.
Variable now : string.

(** *** Turbines *)

Definition add_turbine (serial_number frame_type location : value) : M record :=
  turbines ← collection "turbines";
  turbine_id ← lift (_get_next_id turbines "turbine_id");
  let new_turbine : record :=
    <["turbine_id" := turbine_id]> (<["serial_number" := serial_number]>
      (<["frame_type" := frame_type]> (<["location" := location]> ∅))) in
  _ ← append_to "turbines" new_turbine;
  _ ← save_data;
  _ ← print ("Added new turbine: " +:+ py_str serial_number);
  mret new_turbine.

(** The loop shared by the two lookups by serial number: the first item
    whose ["serial_number"] equals the argument. *)
Fixpoint first_by_serial (items : list record) (serial_number : value)
  : result (option record) :=
  match items with
  | [] => Ok None
  | item :: rest =>
      s ← getitem item "serial_number";
      if py_eq s serial_number then Ok (Some item)
      else first_by_serial rest serial_number
  end.

Definition get_all_turbines (d : Document) : list record :=
  collection_or_empty d "turbines".

Definition get_turbine_by_serial (d : Document) (serial_number : value)
  : result (option record) :=
  first_by_serial (get_all_turbines d) serial_number.

(** *** Part masters *)

Definition add_part_master (part_number description manufacturer : value) : M record :=
  parts ← collection "part_master";
  let new_part : record :=
    <["part_number" := part_number]> (<["description" := description]>
      (<["manufacturer" := manufacturer]> ∅)) in
  _ ← append_to "part_master" new_part;
  _ ← save_data;
  _ ← print ("Added new part master: " +:+ py_str part_number);
  mret new_part.

Definition get_all_part_masters (d : Document) : list record :=
  collection_or_empty d "part_master".

(** *** Part instances *)

Definition add_part_instance (part_number serial_number : value) : M record :=
  instances ← collection "part_instances";
  instance_id ← lift (_get_next_id instances "instance_id");
  let new_instance : record :=
    <["instance_id" := instance_id]> (<["part_number" := part_number]>
      (<["serial_number" := serial_number]> ∅)) in
  _ ← append_to "part_instances" new_instance;
  _ ← save_data;
  _ ← print ("Added new part instance: " +:+ py_str serial_number);
  mret new_instance.

Definition get_all_part_instances (d : Document) : list record :=
  collection_or_empty d "part_instances".

Definition get_part_by_serial (d : Document) (serial_number : value)
  : result (option record) :=
  first_by_serial (get_all_part_instances d) serial_number.

(** *** Installation history *)

Definition add_installation_record (instance_id turbine_id installation_date : value)
  : M record :=
  history ← collection "installation_history";
  let installation_date :=
    if decide (installation_date = VNone) then VStr today else installation_date in
  installation_id ← lift (_get_next_id history "installation_id");
  let new_record : record :=
    <["installation_id" := installation_id]> (<["instance_id" := instance_id]>
      (<["turbine_id" := turbine_id]> (<["installation_date" := installation_date]> ∅))) in
  _ ← append_to "installation_history" new_record;
  _ ← save_data;
  _ ← print ("Added installation record for instance " +:+ py_str instance_id
             +:+ " in turbine " +:+ py_str turbine_id +:+ ".");
  mret new_record.

Definition get_all_installation_history (d : Document) : list record :=
  collection_or_empty d "installation_history".

(** *** Maintenance log *)

Definition add_maintenance_log (instance_id description log_date : value) : M record :=
  logs ← collection "maintenance_log";
  let log_date := if decide (log_date = VNone) then VStr now else log_date in
  log_id ← lift (_get_next_id logs "log_id");
  let new_log : record :=
    <["log_id" := log_id]> (<["instance_id" := instance_id]>
      (<["description" := description]> (<["log_date" := log_date]> ∅))) in
  _ ← append_to "maintenance_log" new_log;
  _ ← save_data;
  _ ← print ("Added maintenance log for instance " +:+ py_str instance_id +:+ ".");
  mret new_log.

Definition get_all_maintenance_logs (d : Document) : list record :=
  collection_or_empty d "maintenance_log".

(** *** Install and remove *)

(** The loop of [install_part]: is there a record of this instance
    without a ["removal_date"] key?  Both subscripts are evaluated at
    every record, the record's first. *)
Fixpoint already_installed (history : list record) (part_instance : record)
  : result bool :=
  match history with
  | [] => Ok false
  | record :: rest =>
      a ← getitem record "instance_id";
      b ← getitem part_instance "instance_id";
      if py_eq a b && negb (has_key "removal_date" record) then Ok true
      else already_installed rest part_instance
  end.

Definition install_part (part_serial_number turbine_serial_number installation_date : value)
  : M unit :=
  part_instance ← read (λ d, get_part_by_serial d part_serial_number);
  match truthy part_instance with
  | None =>
      print ("Error: Part with serial number '" +:+ py_str part_serial_number
             +:+ "' not found.")
  | Some part_instance =>
      turbine ← read (λ d, get_turbine_by_serial d turbine_serial_number);
      match truthy turbine with
      | None =>
          print ("Error: Turbine with serial number '" +:+ py_str turbine_serial_number
                 +:+ "' not found.")
      | Some turbine =>
          blocked ← read (λ d,
            already_installed (get_all_installation_history d) part_instance);
          if blocked : bool then
            print ("Error: Part '" +:+ py_str part_serial_number
                   +:+ "' is already installed in a turbine.")
          else
            instance_id ← lift (getitem part_instance "instance_id");
            turbine_id ← lift (getitem turbine "turbine_id");
            _ ← add_installation_record instance_id turbine_id installation_date;
            mret ()
      end
  end.

(** The loop of [remove_part]: position and value of the first record of
    this instance without a ["removal_date"] key; [i] is the position of
    the head of [history] in the collection. *)
Fixpoint find_active (history : list record) (part_instance : record) (i : nat)
  : result (option (nat * record)) :=
  match history with
  | [] => Ok None
  | record :: rest =>
      a ← getitem record "instance_id";
      b ← getitem part_instance "instance_id";
      if py_eq a b && negb (has_key "removal_date" record) then Ok (Some (i, record))
      else find_active rest part_instance (S i)
  end.

Definition remove_part (part_serial_number removal_date : value) : M unit :=
  part_instance ← read (λ d, get_part_by_serial d part_serial_number);
  match truthy part_instance with
  | None =>
      print ("Error: Part with serial number '" +:+ py_str part_serial_number
             +:+ "' not found.")
  | Some part_instance =>
      let removal_date :=
        if decide (removal_date = VNone) then VStr today else removal_date in
      history ← collection "installation_history";
      active_record ← lift (find_active history part_instance 0);
      match active_record with
      | Some (i, record) =>
          match truthy (Some record) with
          | Some _ =>
              _ ← set_field "installation_history" i "removal_date" removal_date;
              _ ← save_data;
              print ("Part '" +:+ py_str part_serial_number +:+ "' removed on "
                     +:+ py_str removal_date +:+ ".")
          | None =>
              print ("Error: Part '" +:+ py_str part_serial_number
                     +:+ "' has no active installation record to remove.")
          end
      | None =>
          print ("Error: Part '" +:+ py_str part_serial_number
                 +:+ "' has no active installation record to remove.")
      end
  end.

(** *** Queries *)

(** What [get_part_lifecycle] returns: a message, or a dict whose values
    are a record or a list of records. *)
Inductive field :=
  | FRecord (r : record)
  | FList (l : list record).

Inductive lifecycle :=
  | LMessage (s : string)
  | LDict (d : gmap string field).

Global Instance field_eq_dec : EqDecision field.
Proof. solve_decision. Defined.

Global Instance lifecycle_eq_dec : EqDecision lifecycle.
Proof. solve_decision. Defined.

(** [next((p for p in items if p['instance_id'] == instance_id), None)] *)
Fixpoint first_by_instance_id (items : list record) (instance_id : value)
  : result (option record) :=
  match items with
  | [] => Ok None
  | p :: rest =>
      a ← getitem p "instance_id";
      if py_eq a instance_id then Ok (Some p)
      else first_by_instance_id rest instance_id
  end.

(** [[r for r in items if r['instance_id'] == instance_id]] *)
Fixpoint select_by_instance_id (items : list record) (instance_id : value)
  : result (list record) :=
  match items with
  | [] => Ok []
  | r :: rest =>
      a ← getitem r "instance_id";
      tl ← select_by_instance_id rest instance_id;
      Ok (if py_eq a instance_id then r :: tl else tl)
  end.

Definition get_part_lifecycle (d : Document) (instance_id : value) : result lifecycle :=
  part_instance ← first_by_instance_id (get_all_part_instances d) instance_id;
  match truthy part_instance with
  | None => Ok (LMessage "Part instance not found.")
  | Some part_instance =>
      installation_history ←
        select_by_instance_id (get_all_installation_history d) instance_id;
      maintenance_history ←
        select_by_instance_id (get_all_maintenance_logs d) instance_id;
      Ok (LDict (<["part_details" := FRecord part_instance]>
                 (<["installation_history" := FList installation_history]>
                 (<["maintenance_log" := FList maintenance_history]> ∅))))
  end.

(** The set comprehension of [get_installed_parts]: the condition is
    evaluated first, the element expression only when it holds. *)
Fixpoint installed_instance_ids (history : list record) (turbine_id : value)
  : result (gset value) :=
  match history with
  | [] => Ok ∅
  | rec :: rest =>
      t ← getitem rec "turbine_id";
      if py_eq t turbine_id && negb (has_key "removal_date" rec) then
        i ← getitem rec "instance_id";
        ids ← installed_instance_ids rest turbine_id;
        Ok ({[ i ]} ∪ ids)
      else installed_instance_ids rest turbine_id
  end.

(** [[inst for inst in instances if inst['instance_id'] in ids]] *)
Fixpoint select_installed (instances : list record) (ids : gset value)
  : result (list record) :=
  match instances with
  | [] => Ok []
  | inst :: rest =>
      i ← getitem inst "instance_id";
      tl ← select_installed rest ids;
      Ok (if bool_decide (i ∈ ids) then inst :: tl else tl)
  end.

Definition get_installed_parts (d : Document) (turbine_id : value)
  : result (list record) :=
  ids ← installed_instance_ids (get_all_installation_history d) turbine_id;
  select_installed (get_all_part_instances d) ids.

End app_logic.

(** ** Vocabulary of the specification *)

(** An installation record is open when it has no ["removal_date"]. *)
Definition open_record (r : record) : Prop := r !! "removal_date" = None.

(** An open installation record of the instance [instance_id]. *)
Definition open_for (instance_id : value) (r : record) : Prop :=
  r !! "instance_id" = Some instance_id ∧ open_record r.

Global Instance open_for_dec instance_id r : Decision (open_for instance_id r).
Proof. unfold open_for, open_record. apply _. Defined.

(** An installation record of the instance, open or closed. *)
Definition record_of (instance_id : value) (r : record) : Prop :=
  r !! "instance_id" = Some instance_id.

Global Instance record_of_dec instance_id r : Decision (record_of instance_id r).
Proof. unfold record_of. apply _. Defined.

Definition open_count (d : Document) (instance_id : value) : nat :=
  length (filter (open_for instance_id) (get_all_installation_history d)).

Definition record_count (d : Document) (instance_id : value) : nat :=
  length (filter (record_of instance_id) (get_all_installation_history d)).

(** An open installation record of the instance in the turbine. *)
Definition open_in (turbine_id instance_id : value) (r : record) : Prop :=
  r !! "turbine_id" = Some turbine_id ∧ open_for instance_id r.

Global Instance open_in_dec turbine_id instance_id r :
  Decision (open_in turbine_id instance_id r).
Proof. unfold open_in. apply _. Defined.

(** The part instance has an open installation record in the turbine. *)
Definition installed_in (d : Document) (turbine_id : value) (inst : record) : Prop :=
  ∃ iid, inst !! "instance_id" = Some iid ∧
         Exists (open_in turbine_id iid) (get_all_installation_history d).

Global Instance installed_in_dec d turbine_id inst :
  Decision (installed_in d turbine_id inst).
Proof.
  unfold installed_in. destruct (inst !! "instance_id") as [iid|].
  - destruct (decide (Exists (open_in turbine_id iid)
                        (get_all_installation_history d))) as [H|H].
    + left. by exists iid.
    + right. intros (i & [= <-] & ?). done.
  - right. by intros (i & [=] & _).
Defined.

(** The items of a collection carry the integers [ids] under [id_key]. *)
Definition id_values (id_key : string) (items : list record) (ids : list Z) : Prop :=
  Forall2 (λ item z, item !! id_key = Some (VInt z)) items ids.

Global Instance id_values_dec id_key items ids : Decision (id_values id_key items ids).
Proof. unfold id_values. apply _. Defined.

(** One more than the largest of the integers, 1 when there is none. *)
Definition next_of (ids : list Z) : Z :=
  match ids with
  | [] => 1
  | z :: zs => foldl Z.max z zs + 1
  end.

(** Every item of a list has the key. *)
Definition all_have (k : string) (items : list record) : Prop :=
  Forall (λ item, is_Some (item !! k)) items.

Global Instance all_have_dec k items : Decision (all_have k items).
Proof. unfold all_have. apply _. Defined.

(** The failures the specification names, and the line by which the
    source reports each of them; the functions return [None] either way. *)
Inductive failure :=
  | PartNotFound
  | TurbineNotFound
  | AlreadyInstalled
  | NoActiveInstallation.

Definition failure_line (f : failure) (part_sn turbine_sn : value) : string :=
  match f with
  | PartNotFound =>
      "Error: Part with serial number '" +:+ py_str part_sn +:+ "' not found."
  | TurbineNotFound =>
      "Error: Turbine with serial number '" +:+ py_str turbine_sn +:+ "' not found."
  | AlreadyInstalled =>
      "Error: Part '" +:+ py_str part_sn +:+ "' is already installed in a turbine."
  | NoActiveInstallation =>
      "Error: Part '" +:+ py_str part_sn
      +:+ "' has no active installation record to remove."
  end.

(** The call reported [f] and did nothing else: one more line on
    standard output, the document and the file as before, no save. *)
Definition fails_with (f : failure) (part_sn turbine_sn : value)
    (dm : DataManager) (out : result unit * DataManager) : Prop :=
  out = (Ok (), mkDataManager (data dm) (file dm)
                  (trace dm ++ [Printed (failure_line f part_sn turbine_sn)])).

(** Number of [save_data] calls recorded in a trace. *)
Definition saves (t : list event) : nat :=
  length (filter (λ e, e = Saved) t).

(** A call that changed neither document nor file and did not save. *)
Definition quiet (dm : DataManager) (out : result unit * DataManager) : Prop :=
  ∃ res tr, out = (res, mkDataManager (data dm) (file dm) (trace dm ++ tr)) ∧
            saves tr = 0.

(** Calls of the install/remove state machine and their runs.  A call
    that raises leaves the state it reached; the run goes on from it. *)
Inductive call :=
  | Install (part_serial_number turbine_serial_number installation_date : value)
  | Remove (part_serial_number removal_date : value).

Definition run_call (today : string) (c : call) : M unit :=
  match c with
  | Install p t d => install_part today p t d
  | Remove p d => remove_part today p d
  end.

(** The states after each call of the sequence, in order. *)
Fixpoint run_calls (today : string) (cs : list call) (dm : DataManager)
  : list DataManager :=
  match cs with
  | [] => []
  | c :: cs' =>
      let dm' := (run_call today c dm).2 in
      dm' :: run_calls today cs' dm'
  end.

(** Two calls of [install_part] in a row for the part serial number [p]:
    the second reports AlreadyInstalled, and the instance is left with
    one open record and one record more than before the two calls, so
    with exactly one record when it had none. *)
Definition second_install_blocked (today : string) (p t0 date0 t1 date1 iid : value)
    (dm : DataManager) : Prop :=
  let dm1 := (install_part today p t0 date0 dm).2 in
  let out2 := install_part today p t1 date1 dm1 in
  fails_with AlreadyInstalled p t1 dm1 out2 ∧
  open_count (data out2.2) iid = 1 ∧
  record_count (data out2.2) iid = S (record_count (data dm) iid) ∧
  (record_count (data dm) iid = 0 → record_count (data out2.2) iid = 1).

(** [install_part] followed by [remove_part] for the same part: the part
    instance [inst] is among the installed parts of the turbine after
    the first call and not after the second. *)
Definition install_then_remove (today : string) (p t date rdate turbine_id : value)
    (inst : record) (dm : DataManager) : Prop :=
  let dm1 := (install_part today p t date dm).2 in
  let dm2 := (remove_part today p rdate dm1).2 in
  (∃ l1, get_installed_parts (data dm1) turbine_id = Ok l1 ∧ inst ∈ l1) ∧
  data dm2 ≠ data dm1 ∧
  (∃ l2, get_installed_parts (data dm2) turbine_id = Ok l2 ∧ inst ∉ l2).

(** Calls of the add functions that assign an id, the collection and
    id key each one works on, and a run that collects the new records. *)
Inductive add_call :=
  | AddTurbine (serial_number frame_type location : value)
  | AddPartInstance (part_number serial_number : value)
  | AddInstallationRecord (instance_id turbine_id installation_date : value)
  | AddMaintenanceLog (instance_id description log_date : value).

Definition add_target (c : add_call) : string * string :=
  match c with
  | AddTurbine _ _ _ => ("turbines", "turbine_id")
  | AddPartInstance _ _ => ("part_instances", "instance_id")
  | AddInstallationRecord _ _ _ => ("installation_history", "installation_id")
  | AddMaintenanceLog _ _ _ => ("maintenance_log", "log_id")
  end.

Definition run_add (today now : string) (c : add_call) : M record :=
  match c with
  | AddTurbine s f l => add_turbine s f l
  | AddPartInstance p s => add_part_instance p s
  | AddInstallationRecord i t d => add_installation_record today i t d
  | AddMaintenanceLog i s d => add_maintenance_log now i s d
  end.

Fixpoint run_adds (today now : string) (cs : list add_call) : M (list record) :=
  match cs with
  | [] => mret []
  | c :: cs' =>
      r ← run_add today now c;
      rs ← run_adds today now cs';
      mret (r :: rs)
  end.

(** ** Sample documents *)

Definition sample_turbines : list record :=
  [ {[ "turbine_id" := VInt 1; "serial_number" := VStr "T-SN-101";
       "frame_type" := VStr "GE 1.5sle"; "location" := VStr "Wind Farm Alpha" ]};
    {[ "turbine_id" := VInt 2; "serial_number" := VStr "T-SN-102";
       "frame_type" := VStr "GE 1.5sle"; "location" := VStr "Wind Farm Beta" ]} ].

Definition sample_master : record :=
  {[ "part_number" := VStr "PN-1001"; "description" := VStr "Main Bearing";
     "manufacturer" := VStr "" ]}.

Definition sample_masters : list record := [ sample_master ].

Definition sample_instance : record :=
  {[ "instance_id" := VInt 1; "part_number" := VStr "PN-1001";
     "serial_number" := VStr "PI-SN-001" ]}.

Definition sample_instances : list record :=
  [ sample_instance;
    {[ "instance_id" := VInt 2; "part_number" := VStr "PN-1001";
       "serial_number" := VStr "PI-SN-002" ]} ].

(** The sample document with the given installation history and logs. *)
Definition sample_doc (history logs : list record) : Document :=
  {[ "turbines" := sample_turbines;
     "part_master" := sample_masters;
     "part_instances" := sample_instances;
     "installation_history" := history;
     "maintenance_log" := logs ]}.

Definition sample_dm (history : list record) : DataManager :=
  mkDataManager (sample_doc history []) (Json (sample_doc history [])) [].

(** Installation records: open, closed, and with a ["removal_date"]
    that is present and [None]. *)
Definition open_rec (installation_id instance_id turbine_id : Z) : record :=
  {[ "installation_id" := VInt installation_id; "instance_id" := VInt instance_id;
     "turbine_id" := VInt turbine_id; "installation_date" := VStr "2024-03-01" ]}.

Definition closed_rec (installation_id instance_id turbine_id : Z) : record :=
  <["removal_date" := VStr "2024-04-01"]>
    (open_rec installation_id instance_id turbine_id).

Definition none_rec (installation_id instance_id turbine_id : Z) : record :=
  <["removal_date" := VNone]> (open_rec installation_id instance_id turbine_id).

Definition sample_log : record :=
  {[ "log_id" := VInt 2; "instance_id" := VInt 1;
     "description" := VStr "Initial inspection complete.";
     "log_date" := VStr "2024-03-02" ]}.

Definition sample_logs : list record :=
  [ {[ "log_id" := VInt 1; "instance_id" := VInt 2;
       "description" := VStr "Filter replaced."; "log_date" := VStr "2024-02-11" ]};
    sample_log ].

(** The dict [get_part_lifecycle] returns for the first sample instance
    on the history [closed_rec 1 1 1; open_rec 2 2 1; open_rec 3 1 2]. *)
Definition sample_view : gmap string field :=
  {[ "part_details" := FRecord sample_instance;
     "installation_history" := FList [closed_rec 1 1 1; open_rec 3 1 2];
     "maintenance_log" := FList [sample_log] ]}.

Definition sample_adds : list add_call :=
  [ AddTurbine (VStr "T-SN-103") (VStr "V90") (VStr "");
    AddTurbine (VStr "T-SN-104") (VStr "V90") (VStr "Wind Farm Beta");
    AddTurbine (VStr "T-SN-105") (VStr "V112") (VStr "") ].

Definition sample_calls : list call :=
  [ Install (VStr "PI-SN-001") (VStr "T-SN-101") VNone;
    Install (VStr "PI-SN-001") (VStr "T-SN-102") VNone;
    Install (VStr "PI-SN-002") (VStr "T-SN-101") (VStr "2024-05-02");
    Remove (VStr "PI-SN-001") VNone;
    Remove (VStr "PI-SN-001") VNone;
    Install (VStr "PI-SN-001") (VStr "T-SN-102") VNone ].

(** ** The importer (file_handler.py) *)

(** What [import_from_file] finds at [file_path]: nothing, a file that
    [pd.read_csv] or [pd.read_excel] rejects with an exception whose
    text is [msg], or a table.  A row of a table comes with its index
    label, as [df.iterrows()] yields it (an integer, a string or
    [None]), and gives a value for each column name. *)
Inductive table_file :=
  | Absent
  | Unreadable (msg : string)
  | Table (columns : list string) (rows : list (value * (string → value))).

(** [s.endswith(suffix)] *)
Definition ends_with (suffix s : string) : bool :=
  (String.length suffix <=? String.length s)%nat &&
  String.eqb
    (String.substring (String.length s - String.length suffix)
       (String.length suffix) s)
    suffix.

(** The dict the importer returns. *)
Definition import_summary (added failed : nat) (error : value) : record :=
  {[ "added" := VInt (Z.of_nat added); "failed" := VInt (Z.of_nat failed);
     "error" := error ]}.

Definition required_columns : list string :=
  ["part_number"; "serial_number"; "manufacture_date"].

(** The loop over [required_columns]: the first one the table lacks. *)
Fixpoint first_missing_column (required columns : list string) : option string :=
  match required with
  | [] => None
  | col :: rest =>
      if bool_decide (col ∈ columns) then first_missing_column rest columns
      else Some col
  end.

(** [add_part_instance(data_manager=.., part_number=.., serial_number=..,
    manufacture_date=..)]: the function has no parameter
    [manufacture_date], so the call raises [TypeError] before the body
    runs. *)
Definition add_part_instance_dated
    (part_number serial_number manufacture_date : value) : M record :=
  lift (Raise TypeError).

(** [v + n] for an integer [n]. *)
Definition py_add (v : value) (n : Z) : result value :=
  match v with
  | VInt z => Ok (VInt (z + n))
  | _ => Raise TypeError
  end.

Section importer.

(** [str(e)] for an exception, as the interpreter words it. *)
Variable str_of_exn : exn → string.

(** The loop over [df.iterrows()].  A row whose processing raises is
    counted and reported with [index + 2]; when the index label is not a
    number that sum raises inside the [except] clause and the exception
    leaves the function. *)
Fixpoint import_rows (rows : list (value * (string → value))) (added failed : nat)
  : M (nat * nat) :=
  match rows with
  | [] => mret (added, failed)
  | (index, row) :: rest => λ dm,
      let part_number := VStr (py_str (row "part_number")) in
      let serial_number := VStr (py_str (row "serial_number")) in
      let manufacture_date := VStr (py_str (row "manufacture_date")) in
      match add_part_instance_dated part_number serial_number manufacture_date dm with
      | (Ok _, dm') => import_rows rest (S added) failed dm'
      | (Raise e, dm') =>
          match py_add index 2 with
          | Ok n =>
              (_ ← print ("Failed to process row " +:+ py_str n +:+ ": "
                          +:+ str_of_exn e);
               import_rows rest added (S failed)) dm'
          | Raise e' => (Raise e', dm')
          end
      end
  end.

Definition import_from_file (file_path : string) (f : table_file) : M record :=
  match f with
  | Absent => mret (import_summary 0 0 (VStr "File not found."))
  | _ =>
      if ends_with ".csv" file_path || ends_with ".xls" file_path
         || ends_with ".xlsx" file_path then
        match f with
        | Table columns rows =>
            match first_missing_column required_columns columns with
            | Some col =>
                mret (import_summary 0 0 (VStr ("Missing required column: " +:+ col)))
            | None =>
                counts ← import_rows rows 0 0;
                mret (import_summary counts.1 counts.2 VNone)
            end
        | Unreadable msg =>
            mret (import_summary 0 0 (VStr ("Failed to read file: " +:+ msg)))
        | Absent => mret (import_summary 0 0 (VStr "File not found."))
        end
      else mret (import_summary 0 0 (VStr "Unsupported file type."))
  end.

End importer.

(** ** Runs of mutating operations *)

Inductive operation :=
  | OpAdd (c : add_call)
  | OpAddPartMaster (part_number description manufacturer : value)
  | OpCall (c : call).

Definition run_operation (today now : string) (op : operation) (dm : DataManager)
  : DataManager :=
  match op with
  | OpAdd c => (run_add today now c dm).2
  | OpAddPartMaster p d m => (add_part_master p d m dm).2
  | OpCall c => (run_call today c dm).2
  end.

(** The states after each operation of the sequence, in order. *)
Fixpoint run_operations (today now : string) (ops : list operation) (dm : DataManager)
  : list DataManager :=
  match ops with
  | [] => []
  | op :: ops' =>
      let dm' := run_operation today now op dm in
      dm' :: run_operations today now ops' dm'
  end.

(** The persisted file holds the document in memory. *)
Definition in_sync (dm : DataManager) : Prop := file dm = Json (data dm).

(** [r'] is [r], or [r] was open and [r'] is [r] with a removal date. *)
Definition patched (r r' : record) : Prop :=
  r' = r ∨ (open_record r ∧ ∃ rd, r' = <["removal_date" := rd]> r).

(** From [d] to [d'] only the installation history changed, and every
    record of it is still at its position, as it was or patched. *)
Definition history_kept (d d' : Document) : Prop :=
  (∀ k, k ≠ "installation_history" → d' !! k = d !! k) ∧
  (∀ j r, get_all_installation_history d !! j = Some r →
          ∃ r', get_all_installation_history d' !! j = Some r' ∧ patched r r').

(** A document that has turbines and part instances and none of the
    other collections. *)
Definition partial_doc : Document :=
  {[ "turbines" := sample_turbines; "part_instances" := sample_instances ]}.

Definition partial_dm : DataManager :=
  mkDataManager partial_doc (Json partial_doc) [].

(** The value is a Python [int]. *)
Definition is_int (v : value) : Prop := ∃ z, v = VInt z.

Global Instance is_int_dec v : Decision (is_int v).
Proof.
  destruct v as [|z|s]; [right|left|right]; unfold is_int; try by eexists.
  all: by intros [z [=]].
Defined.

(** The state after [install_part], [remove_part] and [install_part]
    again for the same part serial number. *)
Definition install_remove_install (today : string) (p t1 d1 rd t2 d2 : value)
    (dm : DataManager) : DataManager :=
  (install_part today p t2 d2
     (remove_part today p rd (install_part today p t1 d1 dm).2).2).2.

(** The date a call stamps: the one given, today's when it is [None]. *)
Definition date_or_today (today : string) (date : value) : value :=
  if decide (date = VNone) then VStr today else date.

(** A table of two rows with the required columns and one more. *)
Definition sample_columns : list string :=
  ["part_number"; "serial_number"; "manufacture_date"; "extra_column"].

Definition sample_rows : list (value * (string → value)) :=
  [ (VInt 0,
     λ col, if String.eqb col "part_number" then VStr "PN-IMPORT-1"
            else if String.eqb col "serial_number" then VStr "SN-CSV-001"
            else if String.eqb col "manufacture_date" then VStr "2024-05-10"
            else VStr "ignore");
    (VInt 1,
     λ col, if String.eqb col "part_number" then VStr "PN-IMPORT-2"
            else if String.eqb col "serial_number" then VInt 1002
            else if String.eqb col "manufacture_date" then VStr "2024-05-11"
            else VStr "this") ].

(** The text of the [TypeError] of the importer's call, for the runs on
    the sample table. *)
Definition sample_str_of_exn (e : exn) : string :=
  "add_part_instance() got an unexpected keyword argument 'manufacture_date'".

(** The data manager after [DataManager(filepath)] on a missing file,
    and after one [add_part_instance] on it. *)
Definition fresh_store : DataManager := (DataManager_init NoFile).2.

Definition fresh_with_part : DataManager :=
  (add_part_instance (VStr "PN-1001") (VStr "PI-SN-001") fresh_store).2.

Definition sample_operations : list operation :=
  [ OpAddPartMaster (VStr "PN-2050") (VStr "Gearbox Filter") (VStr "");
    OpAdd (AddPartInstance (VStr "PN-2050") (VStr "PI-SN-003"));
    OpCall (Install (VStr "PI-SN-003") (VStr "T-SN-101") VNone);
    OpCall (Install (VStr "PI-SN-003") (VStr "T-SN-102") VNone);
    OpAdd (AddMaintenanceLog (VInt 3) (VStr "Inspected.") VNone);
    OpCall (Remove (VStr "PI-SN-003") (VStr "2024-06-01"));
    OpCall (Remove (VStr "PI-SN-404") VNone) ].

(** ** Stepping through the monad *)

(** Closed decidable facts about the sample documents, by evaluation. *)
Ltac by_compute :=
  match goal with |- ?P => apply (bool_decide_unpack P) end; vm_compute; exact I.


Lemma bind_M {A B} (m : M A) (f : A → M B) dm :
  (m ≫= f) dm =
  match m dm with
  | (Ok a, dm') => f a dm'
  | (Raise e, dm') => (Raise e, dm')
  end.
Proof. reflexivity. Qed.

Lemma bind_result {A B} (m : result A) (f : A → result B) :
  (m ≫= f) = match m with Ok a => f a | Raise e => Raise e end.
Proof. reflexivity. Qed.

Ltac eval_result := cbn [mbind result_bind mret result_ret].

Lemma collection_Some k l dm : data dm !! k = Some l → collection k dm = (Ok l, dm).
Proof. intros H. unfold collection. by rewrite H. Qed.

Lemma getitem_Some (r : gmap string value) k v : r !! k = Some v → getitem r k = Ok v.
Proof. intros H. unfold getitem. by rewrite H. Qed.

Lemma getitem_Ok (r : gmap string value) k v : getitem r k = Ok v → r !! k = Some v.
Proof. unfold getitem. by destruct (r !! k); intros [=->]. Qed.

Lemma has_key_true k (r : gmap string value) : has_key k r = true ↔ is_Some (r !! k).
Proof. unfold has_key. by rewrite bool_decide_eq_true. Qed.

Lemma has_key_false k (r : gmap string value) : has_key k r = false ↔ r !! k = None.
Proof.
  unfold has_key. rewrite bool_decide_eq_false. by rewrite eq_None_not_Some.
Qed.

Lemma py_eq_true a b : py_eq a b = true ↔ a = b.
Proof. unfold py_eq. by rewrite bool_decide_eq_true. Qed.

Lemma py_eq_false a b : py_eq a b = false ↔ a ≠ b.
Proof. unfold py_eq. by rewrite bool_decide_eq_false. Qed.

(** ** Facts about [_get_next_id] *)

Lemma py_max_from_int zs z :
  py_max_from (VInt z) (VInt <$> zs) = Ok (VInt (foldl Z.max z zs)).
Proof.
  revert z. induction zs as [|x zs IH]; intros z; [done|].
  cbn [fmap list_fmap py_max_from foldl py_gt]. rewrite bind_result.
  destruct (Z.ltb_spec z x) as [Hlt|Hge].
  - rewrite IH. by rewrite Z.max_r by lia.
  - rewrite IH. by rewrite Z.max_l by lia.
Qed.

Lemma foldl_max_ge zs z : (z ≤ foldl Z.max z zs)%Z.
Proof.
  revert z. induction zs as [|x zs IH]; intros z; simpl; [lia|].
  specialize (IH (Z.max z x)). lia.
Qed.

Lemma foldl_max_upper zs z x : x ∈ z :: zs → (x ≤ foldl Z.max z zs)%Z.
Proof.
  revert z. induction zs as [|y zs IH]; intros z Hx.
  - apply list_elem_of_singleton in Hx. subst x. simpl. lia.
  - simpl. pose proof (foldl_max_ge zs (Z.max z y)) as Hge.
    apply elem_of_cons in Hx as [Hx|Hx]; [lia|].
    apply elem_of_cons in Hx as [Hx|Hx]; [lia|].
    apply IH. by apply elem_of_cons; right.
Qed.

Lemma foldl_max_elem zs z : foldl Z.max z zs ∈ z :: zs.
Proof.
  revert z. induction zs as [|y zs IH]; intros z; simpl.
  - apply elem_of_cons; by left.
  - specialize (IH (Z.max z y)). apply elem_of_cons in IH as [IH|IH].
    + rewrite IH. destruct (Z.max_spec z y) as [[_ ->]|[_ ->]].
      * apply elem_of_cons; right. apply elem_of_cons; by left.
      * apply elem_of_cons; by left.
    + apply elem_of_cons; right. by apply elem_of_cons; right.
Qed.

Lemma id_values_defaults id_key items ids :
  id_values id_key items ids →
  (λ item : gmap string value, get_default item id_key (VInt 0)) <$> items = VInt <$> ids.
Proof.
  induction 1 as [|item z items ids Hz _ IH]; [done|].
  cbn [fmap list_fmap]. unfold get_default at 1. rewrite Hz. simpl. f_equal. exact IH.
Qed.

Lemma get_next_id_typed id_key items ids :
  id_values id_key items ids →
  _get_next_id items id_key = Ok (VInt (next_of ids)).
Proof.
  intros H. unfold _get_next_id. rewrite (id_values_defaults _ _ _ H).
  destruct ids as [|z zs]; [done|].
  cbn [fmap list_fmap]. by rewrite py_max_from_int.
Qed.

Lemma next_of_above ids z : z ∈ ids → (z < next_of ids)%Z.
Proof.
  destruct ids as [|y ys]; [by intros ?%elem_of_nil|].
  intros Hz. simpl. pose proof (foldl_max_upper ys y z Hz). lia.
Qed.

(** ** The add functions *)

(** An add on a typed collection returns a record that carries the next
    id and appends it to its collection. *)
Lemma run_add_spec today now c k id_key items ids dm :
  add_target c = (k, id_key) →
  data dm !! k = Some items →
  id_values id_key items ids →
  ∃ r dm', run_add today now c dm = (Ok r, dm') ∧
           r !! id_key = Some (VInt (next_of ids)) ∧
           data dm' !! k = Some (items ++ [r]).
Proof.
  intros Ht Hk Hids.
  destruct c; simpl in Ht; injection Ht as <- <-; simpl;
    [unfold add_turbine | unfold add_part_instance
     | unfold add_installation_record | unfold add_maintenance_log];
    rewrite bind_M, (collection_Some _ _ _ Hk), bind_M;
    unfold lift; rewrite (get_next_id_typed _ _ _ Hids);
    eexists _, _; (split; [reflexivity|]); simpl;
    (split; [by simplify_map_eq | by rewrite lookup_alter_eq, Hk]).
Qed.

Lemma id_values_snoc id_key items ids (r : gmap string value) n :
  id_values id_key items ids → r !! id_key = Some (VInt n) →
  id_values id_key (items ++ [r]) (ids ++ [n]).
Proof. intros H Hr. apply Forall2_app; [exact H|]. by repeat constructor. Qed.

(** A run of adds on one typed collection: every call succeeds, and the
    ids handed out increase strictly and exceed the ids found at the
    start. *)
Lemma run_adds_spec today now k id_key calls : ∀ items ids dm,
  Forall (λ c, add_target c = (k, id_key)) calls →
  data dm !! k = Some items →
  id_values id_key items ids →
  ∃ rs new_ids dm',
    run_adds today now calls dm = (Ok rs, dm') ∧
    id_values id_key rs new_ids ∧
    length rs = length calls ∧
    data dm' !! k = Some (items ++ rs) ∧
    (∀ a b, a ∈ ids → b ∈ new_ids → (a < b)%Z) ∧
    (∀ i j a b, i < j → new_ids !! i = Some a → new_ids !! j = Some b → (a < b)%Z).
Proof.
  induction calls as [|c calls IH]; intros items ids dm Hc Hk Hids.
  - exists [], [], dm. rewrite app_nil_r. repeat split; try done.
    + constructor.
    + by intros a b _ ?%elem_of_nil.
  - apply Forall_cons in Hc as [Hc Hcs].
    destruct (run_add_spec today now c k id_key items ids dm Hc Hk Hids)
      as (r & dm1 & Hrun & Hr & Hk1).
    destruct (IH (items ++ [r]) (ids ++ [next_of ids]) dm1 Hcs Hk1
                (id_values_snoc _ _ _ _ _ Hids Hr))
      as (rs & new_ids & dm' & Hruns & Hnew & Hlen & Hk' & Habove & Hinc).
    exists (r :: rs), (next_of ids :: new_ids), dm'.
    split; [|split; [|split; [|split; [|split]]]].
    + cbn [run_adds]. rewrite bind_M, Hrun, bind_M, Hruns. reflexivity.
    + by constructor.
    + simpl. by rewrite Hlen.
    + by rewrite Hk', <- app_assoc.
    + intros a b Ha Hb. apply elem_of_cons in Hb as [->|Hb].
      * by apply next_of_above.
      * apply Habove; [|done]. apply elem_of_app; by left.
    + intros i j a b Hij Hi Hj. destruct j as [|j]; [lia|]. simpl in Hj.
      destruct i as [|i]; simpl in Hi.
      * injection Hi as <-. apply Habove.
        -- apply elem_of_app; right. by apply list_elem_of_singleton.
        -- by eapply list_elem_of_lookup_2.
      * apply (Hinc i j); [lia|done|done].
Qed.

(** ** Lookups by serial number *)

Lemma first_by_serial_Some items sn (r : gmap string value) :
  first_by_serial items sn = Ok (Some r) →
  r ∈ items ∧ r !! "serial_number" = Some sn.
Proof.
  induction items as [|item items IH]; [done|].
  cbn [first_by_serial]. rewrite bind_result.
  destruct (getitem item "serial_number") as [s|] eqn:Hs; [|done].
  destruct (py_eq s sn) eqn:Heq.
  - intros [= <-]. apply py_eq_true in Heq as ->.
    split; [apply elem_of_cons; by left | by apply getitem_Ok].
  - intros [Hin Hr]%IH. split; [apply elem_of_cons; by right | done].
Qed.

(** A record found by a lookup has a key, so it is a true object. *)
Lemma truthy_keyed (r : gmap string value) k v : r !! k = Some v → truthy (Some r) = Some r.
Proof.
  intros H. unfold truthy. destruct (decide (r = ∅)) as [->|]; [|done].
  by rewrite lookup_empty in H.
Qed.

Lemma truthy_first_by_serial items sn o :
  first_by_serial items sn = Ok o → truthy o = o.
Proof.
  destruct o as [r|]; [|done].
  intros [_ H]%first_by_serial_Some. by eapply truthy_keyed.
Qed.

(** ** The scan for an open record *)

(** The test both loops apply to a record whose ["instance_id"] is read. *)
Lemma open_test iid (r : gmap string value) a :
  r !! "instance_id" = Some a →
  py_eq a iid && negb (has_key "removal_date" r) = bool_decide (open_for iid r).
Proof.
  intros Ha. unfold open_for, open_record.
  destruct (py_eq a iid) eqn:Heq; simpl.
  - apply py_eq_true in Heq as ->.
    destruct (has_key "removal_date" r) eqn:Hk; simpl; symmetry.
    + apply has_key_true in Hk as [v Hk].
      apply bool_decide_eq_false. rewrite Hk. by intros [_ ?].
    + apply has_key_false in Hk. by apply bool_decide_eq_true.
  - apply py_eq_false in Heq. symmetry. apply bool_decide_eq_false.
    rewrite Ha. intros [[= ?] _]. done.
Qed.

(** [install_part] and [remove_part] run the same scan. *)
Lemma already_installed_find_active history inst i :
  already_installed history inst =
  match find_active history inst i with
  | Ok o => Ok (match o with Some _ => true | None => false end)
  | Raise e => Raise e
  end.
Proof.
  revert i. induction history as [|r history IH]; intros i; [done|].
  cbn [already_installed find_active]; eval_result.
  destruct (getitem r "instance_id") as [a|]; eval_result; [|done].
  destruct (getitem inst "instance_id") as [b|]; eval_result; [|done].
  destruct (py_eq a b && negb (has_key "removal_date" r)); [done|].
  apply IH.
Qed.

Lemma find_active_Some history inst : ∀ i j (r : gmap string value),
  find_active history inst i = Ok (Some (j, r)) →
  ∃ pre post iid,
    history = pre ++ r :: post ∧ j = i + length pre ∧
    inst !! "instance_id" = Some iid ∧ open_for iid r ∧
    Forall (λ x, ¬ open_for iid x) pre.
Proof.
  induction history as [|x history IH]; intros i j r; [done|].
  cbn [find_active]; eval_result.
  destruct (getitem x "instance_id") as [a|] eqn:Ha; eval_result; [|done].
  destruct (getitem inst "instance_id") as [b|] eqn:Hb; eval_result; [|done].
  apply getitem_Ok in Ha, Hb. rewrite (open_test b x a Ha).
  case_bool_decide as Hopen.
  - intros [= <- <-]. exists [], history, b. simpl.
    split_and!; try done; lia.
  - intros (pre & post & iid & -> & -> & Hi & Hr & Hpre)%IH.
    exists (x :: pre), post, iid. simpl.
    split_and!; try done; try lia.
    constructor; [|done]. rewrite Hb in Hi. by injection Hi as <-.
Qed.

Lemma find_active_None history inst iid : ∀ i,
  find_active history inst i = Ok None →
  inst !! "instance_id" = Some iid →
  Forall (λ x, ¬ open_for iid x) history.
Proof.
  induction history as [|x history IH]; intros i; [by constructor|].
  cbn [find_active]; eval_result.
  destruct (getitem x "instance_id") as [a|] eqn:Ha; eval_result; [|done].
  destruct (getitem inst "instance_id") as [b|] eqn:Hb; eval_result; [|done].
  apply getitem_Ok in Ha, Hb. rewrite (open_test b x a Ha).
  case_bool_decide as Hopen; [done|].
  intros Hrest Hi. rewrite Hb in Hi. injection Hi as <-.
  constructor; [done|]. by eapply IH.
Qed.

(** The scan stops at the first open record of the instance when the
    records before it can be read. *)
Lemma find_active_first pre (r : gmap string value) post inst iid i :
  inst !! "instance_id" = Some iid →
  all_have "instance_id" pre →
  Forall (λ x, ¬ open_for iid x) pre →
  open_for iid r →
  find_active (pre ++ r :: post) inst i = Ok (Some (i + length pre, r)).
Proof.
  intros Hi Hkeys Hclosed Hr. revert i.
  induction pre as [|x pre IH]; intros i.
  - cbn [app find_active]; eval_result.
    destruct Hr as [Hr1 Hr2].
    rewrite (getitem_Some _ _ _ Hr1), (getitem_Some _ _ _ Hi); eval_result.
    rewrite (open_test iid r iid Hr1), bool_decide_eq_true_2 by done.
    simpl. do 3 f_equal. lia.
  - apply Forall_cons in Hkeys as [[a Ha] Hkeys].
    apply Forall_cons in Hclosed as [Hx Hclosed].
    cbn [app find_active]; eval_result.
    rewrite (getitem_Some _ _ _ Ha), (getitem_Some _ _ _ Hi); eval_result.
    rewrite (open_test iid x a Ha), bool_decide_eq_false_2 by done.
    rewrite (IH Hkeys Hclosed). simpl. do 3 f_equal. lia.
Qed.

Lemma find_active_absent history inst iid i :
  all_have "instance_id" history →
  Forall (λ x, ¬ open_for iid x) history →
  (history ≠ [] → inst !! "instance_id" = Some iid) →
  find_active history inst i = Ok None.
Proof.
  intros Hkeys Hclosed Hi. revert i.
  induction history as [|x history IH]; intros i; [done|].
  apply Forall_cons in Hkeys as [[a Ha] Hkeys].
  apply Forall_cons in Hclosed as [Hx Hclosed].
  specialize (Hi ltac:(done)).
  cbn [find_active]; eval_result.
  rewrite (getitem_Some _ _ _ Ha), (getitem_Some _ _ _ Hi); eval_result.
  rewrite (open_test iid x a Ha), bool_decide_eq_false_2 by done.
  destruct history as [|y history]; [done|]. by apply IH.
Qed.

(** ** Steps of the state machine *)

Ltac eval_M :=
  repeat (rewrite ?bind_M;
          progress cbn [mret M_ret read lift print save_data append_to set_field
                        data file trace fst snd]).

Lemma saves_app t1 t2 : saves (t1 ++ t2) = saves t1 + saves t2.
Proof. unfold saves. by rewrite filter_app, length_app. Qed.

(** [add_installation_record] either raises before it touches anything,
    or appends one open record, saves once and prints one line. *)
Lemma add_installation_record_outcome today iid tid date dm :
  (∃ e, add_installation_record today iid tid date dm = (Raise e, dm)) ∨
  (∃ h (r : gmap string value) line nid,
     data dm !! "installation_history" = Some h ∧
     r !! "instance_id" = Some iid ∧ r !! "turbine_id" = Some tid ∧
     r !! "removal_date" = None ∧
     r !! "installation_id" = Some nid ∧
     _get_next_id h "installation_id" = Ok nid ∧
     add_installation_record today iid tid date dm =
       (Ok r, mkDataManager (<["installation_history" := h ++ [r]]> (data dm))
                (Json (<["installation_history" := h ++ [r]]> (data dm)))
                ((trace dm ++ [Saved]) ++ [Printed line]))).
Proof.
  unfold add_installation_record. rewrite bind_M. unfold collection.
  destruct (data dm !! "installation_history") as [h|] eqn:Hh; [|left; eauto].
  rewrite bind_M. unfold lift.
  destruct (_get_next_id h "installation_id") as [nid|e] eqn:Hid; [|left; eauto].
  right. eexists h, _, _, nid. eval_M.
  rewrite (alter_alt_Some _ _ _ _ Hh).
  split_and!; [done| | | | |done|reflexivity]; by simplify_map_eq.
Qed.

Lemma same_state dm : dm = mkDataManager (data dm) (file dm) (trace dm ++ []).
Proof. destruct dm. simpl. by rewrite app_nil_r. Qed.

Lemma quiet_raise dm e : quiet dm (Raise e, dm).
Proof. exists (Raise e), []. split; [by rewrite <- same_state | done]. Qed.

Lemma quiet_print dm line : quiet dm (print line dm).
Proof. by exists (Ok ()), [Printed line]. Qed.

(** [install_part] either leaves document and file alone, or it found
    part and turbine, saw no open record of the part, and appended one
    open record for them. *)
Lemma install_part_outcome today p t date dm :
  quiet dm (install_part today p t date dm) ∨
  (∃ inst turbine iid tid h (r : gmap string value) line,
     get_part_by_serial (data dm) p = Ok (Some inst) ∧
     get_turbine_by_serial (data dm) t = Ok (Some turbine) ∧
     inst !! "instance_id" = Some iid ∧ turbine !! "turbine_id" = Some tid ∧
     data dm !! "installation_history" = Some h ∧
     already_installed h inst = Ok false ∧
     r !! "instance_id" = Some iid ∧ r !! "turbine_id" = Some tid ∧
     r !! "removal_date" = None ∧
     install_part today p t date dm =
       (Ok (), mkDataManager (<["installation_history" := h ++ [r]]> (data dm))
                 (Json (<["installation_history" := h ++ [r]]> (data dm)))
                 ((trace dm ++ [Saved]) ++ [Printed line]))).
Proof.
  unfold install_part. rewrite bind_M; cbn [read].
  destruct (get_part_by_serial (data dm) p) as [o|e] eqn:Hp;
    [|left; apply quiet_raise].
  rewrite (truthy_first_by_serial _ _ _ Hp).
  destruct o as [inst|]; [|left; apply quiet_print].
  rewrite bind_M; cbn [read].
  destruct (get_turbine_by_serial (data dm) t) as [o|e] eqn:Ht;
    [|left; apply quiet_raise].
  rewrite (truthy_first_by_serial _ _ _ Ht).
  destruct o as [turbine|]; [|left; apply quiet_print].
  rewrite bind_M; cbn [read].
  destruct (already_installed (get_all_installation_history (data dm)) inst)
    as [[|]|e] eqn:Hscan; [left; apply quiet_print| |left; apply quiet_raise].
  rewrite bind_M; cbn [lift].
  destruct (getitem inst "instance_id") as [iid|e] eqn:Hi;
    [|left; apply quiet_raise].
  rewrite bind_M; cbn [lift].
  destruct (getitem turbine "turbine_id") as [tid|e] eqn:Htid;
    [|left; apply quiet_raise].
  rewrite bind_M.
  destruct (add_installation_record_outcome today iid tid date dm)
    as [[e ->]|(h & r & line & nid & Hh & Hr1 & Hr2 & Hr3 & _ & _ & ->)];
    [left; apply quiet_raise|].
  right. exists inst, turbine, iid, tid, h, r, line.
  unfold get_all_installation_history, collection_or_empty in Hscan.
  rewrite Hh in Hscan. apply getitem_Ok in Hi, Htid.
  by split_and!.
Qed.

(** [remove_part] either leaves document and file alone, or it found the
    part and patched the first open record of the part, and only it. *)
Lemma remove_part_outcome today p date dm :
  quiet dm (remove_part today p date dm) ∨
  (∃ inst iid pre (r : gmap string value) post line,
     get_part_by_serial (data dm) p = Ok (Some inst) ∧
     inst !! "instance_id" = Some iid ∧
     data dm !! "installation_history" = Some (pre ++ r :: post) ∧
     open_for iid r ∧ Forall (λ x, ¬ open_for iid x) pre ∧
     let rd := if decide (date = VNone) then VStr today else date in
     let h' := pre ++ <["removal_date" := rd]> r :: post in
     remove_part today p date dm =
       (Ok (), mkDataManager (<["installation_history" := h']> (data dm))
                 (Json (<["installation_history" := h']> (data dm)))
                 ((trace dm ++ [Saved]) ++ [Printed line]))).
Proof.
  unfold remove_part. rewrite bind_M; cbn [read].
  destruct (get_part_by_serial (data dm) p) as [o|e] eqn:Hp;
    [|left; apply quiet_raise].
  rewrite (truthy_first_by_serial _ _ _ Hp).
  destruct o as [inst|]; [|left; apply quiet_print].
  rewrite bind_M. unfold collection.
  destruct (data dm !! "installation_history") as [h|] eqn:Hh;
    [|left; apply quiet_raise].
  rewrite bind_M; cbn [lift].
  destruct (find_active h inst 0) as [[[i r]|]|e] eqn:Hscan;
    [|left; apply quiet_print|left; apply quiet_raise].
  apply find_active_Some in Hscan
    as (pre & post & iid & -> & -> & Hi & Hr & Hpre).
  rewrite (truthy_keyed r "instance_id" iid) by apply Hr.
  right. exists inst, iid, pre, r, post. eexists.
  split_and!; try done. cbn zeta. eval_M.
  rewrite (alter_alt_Some _ _ _ _ Hh).
  replace (0 + length pre) with (length pre + 0) by lia.
  rewrite alter_app_r. reflexivity.
Qed.

(** ** Counting open records *)

Lemma history_lookup (d : gmap string (list (gmap string value))) h :
  d !! "installation_history" = Some h → get_all_installation_history d = h.
Proof.
  intros H. unfold get_all_installation_history, collection_or_empty. by rewrite H.
Qed.

Lemma history_insert (d : gmap string (list (gmap string value))) h :
  get_all_installation_history (<["installation_history" := h]> d) = h.
Proof. apply history_lookup, lookup_insert_eq. Qed.

Lemma count_none {A} (P : A → Prop) `{∀ x, Decision (P x)} (l : list A) :
  Forall (λ x, ¬ P x) l → length (filter P l) = 0.
Proof.
  induction 1 as [|x l Hx _ IH]; [done|]. by rewrite filter_cons_False.
Qed.

Lemma count_none_inv {A} (P : A → Prop) `{∀ x, Decision (P x)} (l : list A) :
  length (filter P l) = 0 → Forall (λ x, ¬ P x) l.
Proof.
  induction l as [|x l IH]; [by constructor|].
  destruct (decide (P x)) as [Hx|Hx].
  - by rewrite filter_cons_True.
  - rewrite filter_cons_False by done. intros ?. constructor; auto.
Qed.

Lemma already_installed_false h inst iid :
  already_installed h inst = Ok false →
  inst !! "instance_id" = Some iid →
  Forall (λ x, ¬ open_for iid x) h.
Proof.
  rewrite (already_installed_find_active h inst 0).
  destruct (find_active h inst 0) as [[?|]|] eqn:Hscan; try done.
  intros _. by eapply find_active_None.
Qed.

Lemma closed_after_removal iid (r : gmap string value) rd :
  ¬ open_for iid (<["removal_date" := rd]> r).
Proof. unfold open_for, open_record. rewrite lookup_insert_eq. by intros [_ ?]. Qed.

(** One step of the state machine keeps "at most one open record". *)
Lemma run_call_open_count today c dm iid :
  open_count (data dm) iid ≤ 1 →
  open_count (data (run_call today c dm).2) iid ≤ 1.
Proof.
  intros Hinv. destruct c as [p t date|p date]; cbn [run_call].
  - destruct (install_part_outcome today p t date dm)
      as [(res & tr & -> & _)
         |(inst & turbine & iid0 & tid & h & r & line & _ & _ & Hi & _ & Hh
           & Hscan & Hr1 & _ & Hr3 & ->)]; [done|].
    cbn [snd data]. unfold open_count in *.
    rewrite history_insert. rewrite (history_lookup _ _ Hh) in Hinv.
    rewrite filter_app, length_app.
    destruct (decide (open_for iid r)) as [Hopen|Hclosed].
    + destruct Hopen as [Hid _]. rewrite Hr1 in Hid. injection Hid as <-.
      rewrite (count_none _ h (already_installed_false _ _ _ Hscan Hi)).
      rewrite filter_cons_True by done. simpl. lia.
    + rewrite filter_cons_False by done. simpl. lia.
  - destruct (remove_part_outcome today p date dm)
      as [(res & tr & -> & _)
         |(inst & iid0 & pre & r & post & line & _ & _ & Hh & _ & _ & Hrun)];
      [done|].
    cbn zeta in Hrun. rewrite Hrun. cbn [snd data]. unfold open_count in *.
    rewrite history_insert. rewrite (history_lookup _ _ Hh) in Hinv.
    rewrite filter_app, length_app in *.
    rewrite filter_cons_False by apply closed_after_removal.
    destruct (decide (open_for iid r)).
    + rewrite filter_cons_True in Hinv by done. simpl in Hinv. lia.
    + by rewrite filter_cons_False in Hinv by done.
Qed.

Lemma run_calls_open_count today calls : ∀ dm iid,
  open_count (data dm) iid ≤ 1 →
  Forall (λ dm', open_count (data dm') iid ≤ 1) (run_calls today calls dm).
Proof.
  induction calls as [|c calls IH]; intros dm iid Hinv; [by constructor|].
  cbn [run_calls]. pose proof (run_call_open_count today c dm iid Hinv).
  constructor; [done|]. by apply IH.
Qed.

(** ** Install: blocked by an open record *)

Lemma first_open {A} (P : A → Prop) `{∀ x, Decision (P x)} (l : list A) :
  Exists P l → ∃ pre x post, l = pre ++ x :: post ∧ P x ∧ Forall (λ y, ¬ P y) pre.
Proof.
  induction l as [|y l IH]; [by intros ?%Exists_nil|].
  destruct (decide (P y)) as [Hy|Hy].
  - intros _. by exists [], y, l.
  - intros [?|Hl]%Exists_cons; [done|].
    destruct (IH Hl) as (pre & x & post & -> & Hx & Hpre).
    exists (y :: pre), x, post. split_and!; [done|done|by constructor].
Qed.

Lemma already_installed_open h inst iid :
  inst !! "instance_id" = Some iid →
  all_have "instance_id" h →
  Exists (open_for iid) h →
  already_installed h inst = Ok true.
Proof.
  intros Hi Hkeys Hex.
  destruct (first_open _ _ Hex) as (pre & x & post & -> & Hx & Hpre).
  rewrite (already_installed_find_active _ inst 0).
  apply Forall_app in Hkeys as [Hkeys _].
  by rewrite (find_active_first pre x post inst iid 0 Hi Hkeys Hpre Hx).
Qed.

Lemma already_installed_app h l inst :
  already_installed h inst = Ok false →
  already_installed (h ++ l) inst = already_installed l inst.
Proof.
  induction h as [|x h IH]; [done|].
  cbn [app already_installed]; eval_result.
  destruct (getitem x "instance_id") as [a|]; eval_result; [|done].
  destruct (getitem inst "instance_id") as [b|]; eval_result; [|done].
  by destruct (py_eq a b && negb (has_key "removal_date" x)).
Qed.

Lemma already_installed_head (r : gmap string value) l inst iid :
  inst !! "instance_id" = Some iid → open_for iid r →
  already_installed (r :: l) inst = Ok true.
Proof.
  intros Hi Hr. cbn [already_installed]; eval_result.
  rewrite (getitem_Some _ _ _ (proj1 Hr)), (getitem_Some _ _ _ Hi); eval_result.
  by rewrite (open_test iid r iid (proj1 Hr)), bool_decide_eq_true_2.
Qed.

(** The call an install reduces to when part and turbine are found and
    the scan of the history finds an open record. *)
Lemma install_part_blocked today p t date dm inst turbine :
  get_part_by_serial (data dm) p = Ok (Some inst) →
  get_turbine_by_serial (data dm) t = Ok (Some turbine) →
  already_installed (get_all_installation_history (data dm)) inst = Ok true →
  fails_with AlreadyInstalled p t dm (install_part today p t date dm).
Proof.
  intros Hp Ht Hscan. unfold fails_with, install_part.
  rewrite bind_M; cbn [read]. rewrite Hp, (truthy_first_by_serial _ _ _ Hp).
  rewrite bind_M; cbn [read]. rewrite Ht, (truthy_first_by_serial _ _ _ Ht).
  rewrite bind_M; cbn [read]. by rewrite Hscan.
Qed.

(** Writing the installation history leaves the other collections. *)
Lemma get_part_by_serial_history (d : gmap string (list (gmap string value))) h p :
  get_part_by_serial (<["installation_history" := h]> d) p = get_part_by_serial d p.
Proof.
  unfold get_part_by_serial, get_all_part_instances, collection_or_empty.
  by rewrite lookup_insert_ne.
Qed.

Lemma get_turbine_by_serial_history (d : gmap string (list (gmap string value))) h t :
  get_turbine_by_serial (<["installation_history" := h]> d) t =
  get_turbine_by_serial d t.
Proof.
  unfold get_turbine_by_serial, get_all_turbines, collection_or_empty.
  by rewrite lookup_insert_ne.
Qed.

Lemma count_snoc {A} (P : A → Prop) `{∀ x, Decision (P x)} (l : list A) x :
  P x → length (filter P (l ++ [x])) = S (length (filter P l)).
Proof.
  intros Hx. rewrite filter_app, length_app, filter_cons_True by done. simpl. lia.
Qed.

(** ** Install: the successful path *)

Lemma add_installation_record_ok today iid tid date dm h nid :
  data dm !! "installation_history" = Some h →
  _get_next_id h "installation_id" = Ok nid →
  ∃ (r : gmap string value) line,
    r !! "instance_id" = Some iid ∧ r !! "turbine_id" = Some tid ∧
    r !! "removal_date" = None ∧ r !! "installation_id" = Some nid ∧
    add_installation_record today iid tid date dm =
      (Ok r, mkDataManager (<["installation_history" := h ++ [r]]> (data dm))
               (Json (<["installation_history" := h ++ [r]]> (data dm)))
               ((trace dm ++ [Saved]) ++ [Printed line])).
Proof.
  intros Hh Hid.
  destruct (add_installation_record_outcome today iid tid date dm)
    as [[e He]|(h' & r & line & nid' & Hh' & H1 & H2 & H3 & H4 & Hid' & Hrun)].
  - exfalso. revert He. unfold add_installation_record.
    rewrite bind_M, (collection_Some _ _ _ Hh), bind_M. unfold lift.
    rewrite Hid. by eval_M.
  - rewrite Hh in Hh'. injection Hh' as <-.
    rewrite Hid in Hid'. injection Hid' as <-.
    by exists r, line.
Qed.

Lemma install_part_installs today p t date dm inst turbine iid tid h nid :
  get_part_by_serial (data dm) p = Ok (Some inst) →
  get_turbine_by_serial (data dm) t = Ok (Some turbine) →
  inst !! "instance_id" = Some iid →
  turbine !! "turbine_id" = Some tid →
  data dm !! "installation_history" = Some h →
  already_installed h inst = Ok false →
  _get_next_id h "installation_id" = Ok nid →
  ∃ (r : gmap string value) line,
    r !! "instance_id" = Some iid ∧ r !! "turbine_id" = Some tid ∧
    r !! "removal_date" = None ∧ r !! "installation_id" = Some nid ∧
    install_part today p t date dm =
      (Ok (), mkDataManager (<["installation_history" := h ++ [r]]> (data dm))
                (Json (<["installation_history" := h ++ [r]]> (data dm)))
                ((trace dm ++ [Saved]) ++ [Printed line])).
Proof.
  intros Hp Ht Hi Htid Hh Hscan Hid.
  destruct (add_installation_record_ok today iid tid date dm h nid Hh Hid)
    as (r & line & H1 & H2 & H3 & H4 & Hadd).
  exists r, line. split_and!; try done.
  unfold install_part.
  rewrite bind_M; cbn [read]. rewrite Hp, (truthy_first_by_serial _ _ _ Hp).
  rewrite bind_M; cbn [read]. rewrite Ht, (truthy_first_by_serial _ _ _ Ht).
  rewrite bind_M; cbn [read]. rewrite (history_lookup _ _ Hh), Hscan.
  rewrite bind_M; cbn [lift]. rewrite (getitem_Some _ _ _ Hi).
  rewrite bind_M; cbn [lift]. rewrite (getitem_Some _ _ _ Htid).
  rewrite bind_M, Hadd. reflexivity.
Qed.

(** A call that changed the document was a successful install. *)
Lemma install_part_changed today p t date dm :
  data (install_part today p t date dm).2 ≠ data dm →
  ∃ inst turbine iid tid h (r : gmap string value) line,
     get_part_by_serial (data dm) p = Ok (Some inst) ∧
     get_turbine_by_serial (data dm) t = Ok (Some turbine) ∧
     inst !! "instance_id" = Some iid ∧ turbine !! "turbine_id" = Some tid ∧
     data dm !! "installation_history" = Some h ∧
     already_installed h inst = Ok false ∧
     r !! "instance_id" = Some iid ∧ r !! "turbine_id" = Some tid ∧
     r !! "removal_date" = None ∧
     install_part today p t date dm =
       (Ok (), mkDataManager (<["installation_history" := h ++ [r]]> (data dm))
                 (Json (<["installation_history" := h ++ [r]]> (data dm)))
                 ((trace dm ++ [Saved]) ++ [Printed line])).
Proof.
  intros Hne.
  destruct (install_part_outcome today p t date dm)
    as [(res & tr & Hq & _)|H]; [|exact H].
  rewrite Hq in Hne. done.
Qed.

(** ** Remove: the three paths *)

Lemma remove_part_not_found today p t date dm :
  get_part_by_serial (data dm) p = Ok None →
  fails_with PartNotFound p t dm (remove_part today p date dm).
Proof.
  intros Hp. unfold fails_with, remove_part.
  rewrite bind_M; cbn [read]. by rewrite Hp.
Qed.

Lemma remove_part_no_active today p t date dm inst h :
  get_part_by_serial (data dm) p = Ok (Some inst) →
  data dm !! "installation_history" = Some h →
  find_active h inst 0 = Ok None →
  fails_with NoActiveInstallation p t dm (remove_part today p date dm).
Proof.
  intros Hp Hh Hscan. unfold fails_with, remove_part.
  rewrite bind_M; cbn [read]. rewrite Hp, (truthy_first_by_serial _ _ _ Hp).
  rewrite bind_M, (collection_Some _ _ _ Hh).
  rewrite bind_M; cbn [lift]. by rewrite Hscan.
Qed.

Lemma remove_part_removes today p date dm inst iid pre (r : gmap string value) post :
  get_part_by_serial (data dm) p = Ok (Some inst) →
  inst !! "instance_id" = Some iid →
  data dm !! "installation_history" = Some (pre ++ r :: post) →
  all_have "instance_id" pre →
  Forall (λ x, ¬ open_for iid x) pre →
  open_for iid r →
  let rd := if decide (date = VNone) then VStr today else date in
  let h' := pre ++ <["removal_date" := rd]> r :: post in
  remove_part today p date dm =
    (Ok (), mkDataManager (<["installation_history" := h']> (data dm))
              (Json (<["installation_history" := h']> (data dm)))
              ((trace dm ++ [Saved])
                 ++ [Printed ("Part '" +:+ py_str p +:+ "' removed on "
                              +:+ py_str rd +:+ ".")])).
Proof.
  intros Hp Hi Hh Hkeys Hpre Hr rd h'. unfold remove_part.
  rewrite bind_M; cbn [read]. rewrite Hp, (truthy_first_by_serial _ _ _ Hp).
  rewrite bind_M, (collection_Some _ _ _ Hh).
  rewrite bind_M; cbn [lift].
  rewrite (find_active_first pre r post inst iid 0 Hi Hkeys Hpre Hr).
  rewrite (truthy_keyed r "instance_id" iid) by apply Hr.
  eval_M. rewrite (alter_alt_Some _ _ _ _ Hh).
  replace (0 + length pre) with (length pre + 0) by lia.
  by rewrite alter_app_r.
Qed.

(** ** The installed-parts query *)

Lemma open_in_test tid iid (rec : gmap string value) t :
  rec !! "turbine_id" = Some t →
  rec !! "instance_id" = Some iid →
  py_eq t tid && negb (has_key "removal_date" rec) = bool_decide (open_in tid iid rec).
Proof.
  intros Ht Hi. unfold open_in, open_for, open_record.
  destruct (py_eq t tid) eqn:Heq; simpl.
  - apply py_eq_true in Heq as ->.
    destruct (has_key "removal_date" rec) eqn:Hk; simpl; symmetry.
    + apply has_key_true in Hk as [v Hk].
      apply bool_decide_eq_false. rewrite Hk. by intros (_ & _ & ?).
    + apply has_key_false in Hk. by apply bool_decide_eq_true.
  - apply py_eq_false in Heq. symmetry. apply bool_decide_eq_false.
    rewrite Ht. intros ([= ?] & _). done.
Qed.

(** The id set holds the instance ids of the open records of the turbine. *)
Lemma installed_instance_ids_typed history tid :
  all_have "turbine_id" history →
  all_have "instance_id" history →
  ∃ ids, installed_instance_ids history tid = Ok ids ∧
         ∀ iid, iid ∈ ids ↔ Exists (open_in tid iid) history.
Proof.
  induction history as [|rec history IH]; intros Ht Hi.
  - exists ∅. split; [done|]. intros iid. rewrite Exists_nil. set_solver.
  - apply Forall_cons in Ht as [[t Ht] Hts].
    apply Forall_cons in Hi as [[i Hi] His].
    destruct (IH Hts His) as (ids & Hids & Hspec).
    cbn [installed_instance_ids]; eval_result.
    rewrite (getitem_Some _ _ _ Ht); eval_result.
    rewrite (open_in_test tid i rec t Ht Hi).
    case_bool_decide as Hopen.
    + rewrite (getitem_Some _ _ _ Hi); eval_result. rewrite Hids; eval_result.
      exists ({[ i ]} ∪ ids). split; [done|]. intros iid.
      rewrite elem_of_union, elem_of_singleton, Exists_cons, Hspec.
      split; (intros [H|H]; [left|by right]).
      * by subst.
      * destruct H as (_ & Hid & _). rewrite Hi in Hid. by injection Hid.
    + rewrite Hids. exists ids. split; [done|]. intros iid.
      rewrite Exists_cons, Hspec. split; [by right|].
      intros [H|H]; [|done]. exfalso. apply Hopen.
      destruct H as (H1 & H2 & H3). rewrite Hi in H2. injection H2 as ->.
      by split_and!.
Qed.

Lemma select_installed_typed instances (ids : gset value) (P : gmap string value → Prop)
    `{∀ x, Decision (P x)} :
  all_have "instance_id" instances →
  (∀ inst i, inst !! "instance_id" = Some i → (i ∈ ids ↔ P inst)) →
  select_installed instances ids = Ok (filter P instances).
Proof.
  intros Hkeys HP. induction instances as [|inst instances IH]; [done|].
  apply Forall_cons in Hkeys as [[i Hi] Hkeys].
  cbn [select_installed]; eval_result.
  rewrite (getitem_Some _ _ _ Hi); eval_result. rewrite (IH Hkeys); eval_result.
  f_equal. case_bool_decide as Hin.
  - by rewrite filter_cons_True by by apply (HP inst i Hi).
  - rewrite filter_cons_False; [done|]. intros ?. by apply Hin, (HP inst i Hi).
Qed.

(** On typed collections the query returns the part instances that have
    an open record in the turbine, as a filter of the collection. *)
Lemma get_installed_parts_typed (d : gmap string (list (gmap string value))) tid :
  all_have "turbine_id" (get_all_installation_history d) →
  all_have "instance_id" (get_all_installation_history d) →
  all_have "instance_id" (get_all_part_instances d) →
  get_installed_parts d tid = Ok (filter (installed_in d tid) (get_all_part_instances d)).
Proof.
  intros Ht Hi Hp. unfold get_installed_parts.
  destruct (installed_instance_ids_typed _ tid Ht Hi) as (ids & -> & Hspec).
  eval_result. apply select_installed_typed; [done|].
  intros inst i Hinst. rewrite Hspec. unfold installed_in. split.
  - intros H. by exists i.
  - intros (i' & Hi' & H). rewrite Hinst in Hi'. by injection Hi' as <-.
Qed.

(** * Properties of the specification *)

(** C1. For every part instance and every finite sequence of
    [install_part] and [remove_part] calls run from a document in which
    the instance has no open installation record, the instance has zero
    or one open installation record after each call of the sequence. *)
Theorem open_records_at_most_one today (instance_id : value) (calls : list call)
    (dm : DataManager) :
  open_count (data dm) instance_id = 0 →
  Forall (λ dm', open_count (data dm') instance_id ≤ 1) (run_calls today calls dm).
Proof. intros H0. apply run_calls_open_count. lia. Qed.

Lemma open_records_at_most_one_witness :
  open_count (data (sample_dm [closed_rec 1 1 2])) (VInt 1) = 0 ∧
  Forall (λ dm', open_count (data dm') (VInt 1) ≤ 1)
         (run_calls "2024-05-01" sample_calls (sample_dm [closed_rec 1 1 2])).
Proof.
  split; [reflexivity|].
  apply (open_records_at_most_one "2024-05-01" (VInt 1) sample_calls
           (sample_dm [closed_rec 1 1 2])).
  reflexivity.
Defined.

(** C2. [install_part] reports AlreadyInstalled, and does nothing else,
    whenever the part instance it resolves has an installation record
    without ["removal_date"], whichever turbine that record names (the
    turbine being installed into included).  In particular, when a call
    of [install_part] has installed a part, the next call for the same
    part serial number reports AlreadyInstalled and adds nothing: the
    instance has one open record and one record more than before the two
    calls, hence exactly one record when it had none. *)
Theorem install_blocked_by_open_record today (p : value) (dm : DataManager) :
  (∀ t date inst turbine iid,
     get_part_by_serial (data dm) p = Ok (Some inst) →
     get_turbine_by_serial (data dm) t = Ok (Some turbine) →
     inst !! "instance_id" = Some iid →
     all_have "instance_id" (get_all_installation_history (data dm)) →
     Exists (open_for iid) (get_all_installation_history (data dm)) →
     fails_with AlreadyInstalled p t dm (install_part today p t date dm)) ∧
  (∀ t0 date0 t1 date1 inst iid turbine1,
     data (install_part today p t0 date0 dm).2 ≠ data dm →
     get_part_by_serial (data dm) p = Ok (Some inst) →
     inst !! "instance_id" = Some iid →
     get_turbine_by_serial (data dm) t1 = Ok (Some turbine1) →
     second_install_blocked today p t0 date0 t1 date1 iid dm).
Proof.
  split.
  - intros t date inst turbine iid Hp Ht Hi Hkeys Hopen.
    eapply install_part_blocked; [done|done|].
    by eapply already_installed_open.
  - intros t0 date0 t1 date1 inst iid turbine1 Hne Hp Hi Ht1.
    unfold second_install_blocked.
    set (dm1 := (install_part today p t0 date0 dm).2) in *.
    set (out2 := install_part today p t1 date1 dm1).
    destruct (install_part_changed today p t0 date0 dm Hne)
      as (inst' & turbine & iid' & tid & h & r & line & Hp' & _ & Hi' & _ & Hh
          & Hscan & Hr1 & _ & Hr3 & Hrun).
    rewrite Hp in Hp'. injection Hp' as <-.
    rewrite Hi in Hi'. injection Hi' as <-.
    assert (Hr : open_for iid r) by done.
    assert (Hdm1 : data dm1 = <["installation_history" := h ++ [r]]> (data dm)).
    { subst dm1. by rewrite Hrun. }
    assert (Hfail : fails_with AlreadyInstalled p t1 dm1 out2).
    { subst out2. eapply install_part_blocked.
      - by rewrite Hdm1, get_part_by_serial_history.
      - by rewrite Hdm1, get_turbine_by_serial_history.
      - rewrite Hdm1, history_insert, (already_installed_app _ _ _ Hscan).
        by eapply already_installed_head. }
    assert (Hdata : data out2.2 = <["installation_history" := h ++ [r]]> (data dm)).
    { rewrite Hfail. by cbn [snd data]. }
    assert (Hrec : record_count (data out2.2) iid = S (record_count (data dm) iid)).
    { rewrite Hdata. unfold record_count.
      rewrite history_insert, (history_lookup _ _ Hh). by apply count_snoc. }
    split_and!; [done| |done|lia].
    rewrite Hdata. unfold open_count. rewrite history_insert.
    rewrite count_snoc by done.
    by rewrite (count_none _ h (already_installed_false _ _ _ Hscan Hi)).
Qed.

Lemma install_blocked_by_open_record_witness :
  fails_with AlreadyInstalled (VStr "PI-SN-001") (VStr "T-SN-101")
    (sample_dm [closed_rec 1 1 1; open_rec 2 1 2])
    (install_part "2024-05-01" (VStr "PI-SN-001") (VStr "T-SN-101") VNone
       (sample_dm [closed_rec 1 1 1; open_rec 2 1 2])) ∧
  second_install_blocked "2024-05-01" (VStr "PI-SN-001") (VStr "T-SN-101") VNone
    (VStr "T-SN-102") VNone (VInt 1) (sample_dm []).
Proof.
  split.
  - apply (proj1 (install_blocked_by_open_record "2024-05-01" (VStr "PI-SN-001")
                    (sample_dm [closed_rec 1 1 1; open_rec 2 1 2]))
             (VStr "T-SN-101") VNone sample_instance
             {[ "turbine_id" := VInt 1; "serial_number" := VStr "T-SN-101";
                "frame_type" := VStr "GE 1.5sle";
                "location" := VStr "Wind Farm Alpha" ]} (VInt 1));
      by_compute.
  - apply (proj2 (install_blocked_by_open_record "2024-05-01" (VStr "PI-SN-001")
                    (sample_dm []))
             (VStr "T-SN-101") VNone (VStr "T-SN-102") VNone sample_instance
             (VInt 1)
             {[ "turbine_id" := VInt 2; "serial_number" := VStr "T-SN-102";
                "frame_type" := VStr "GE 1.5sle";
                "location" := VStr "Wind Farm Beta" ]});
      by_compute.
Defined.

(** [remove_part] on a document that has the installation history
    collection.  When the part serial number resolves to no instance it
    reports PartNotFound; when the instance it resolves has no
    installation record without ["removal_date"], it reports
    NoActiveInstallation.  In both cases every collection of the
    document and the file are as before and [save_data] is not called;
    that also holds when a lookup raises. *)
Theorem remove_without_open_record today (p date : value) (dm : DataManager) :
  let out := remove_part today p date dm in
  (get_part_by_serial (data dm) p = Ok None →
     fails_with PartNotFound p VNone dm out) ∧
  (∀ inst iid h,
     get_part_by_serial (data dm) p = Ok (Some inst) →
     inst !! "instance_id" = Some iid →
     data dm !! "installation_history" = Some h →
     all_have "instance_id" h →
     open_count (data dm) iid = 0 →
     fails_with NoActiveInstallation p VNone dm out) ∧
  (get_part_by_serial (data dm) p = Ok None ∨
   (∃ inst iid, get_part_by_serial (data dm) p = Ok (Some inst) ∧
                inst !! "instance_id" = Some iid ∧
                open_count (data dm) iid = 0) →
     data out.2 = data dm ∧ file out.2 = file dm ∧
     saves (trace out.2) = saves (trace dm)).
Proof.
  intros out. split_and!.
  - apply remove_part_not_found.
  - intros inst iid h Hp Hi Hh Hkeys H0.
    eapply remove_part_no_active; [done|done|].
    apply (find_active_absent h inst iid 0); [done| |done].
    apply (count_none_inv (open_for iid)). unfold open_count in H0.
    by rewrite (history_lookup _ _ Hh) in H0.
  - intros Hcase. subst out.
    destruct (remove_part_outcome today p date dm)
      as [(res & tr & -> & Htr)
         |(inst & iid & pre & r & post & line & Hp & Hi & Hh & Hr & _)].
    + cbn [snd data file trace]. rewrite saves_app, Htr. split_and!; [done|done|lia].
    + exfalso. destruct Hcase as [Hnone|(inst' & iid' & Hp' & Hi' & H0)].
      * by rewrite Hp in Hnone.
      * rewrite Hp in Hp'. injection Hp' as <-.
        rewrite Hi in Hi'. injection Hi' as <-.
        unfold open_count in H0. rewrite (history_lookup _ _ Hh) in H0.
        apply (count_none_inv (open_for iid)) in H0.
        apply Forall_app in H0 as [_ H0]. apply Forall_cons in H0 as [H0 _]. done.
Qed.

Lemma remove_without_open_record_witness :
  fails_with PartNotFound (VStr "PI-SN-009") VNone (sample_dm [open_rec 1 1 1])
    (remove_part "2024-05-01" (VStr "PI-SN-009") VNone (sample_dm [open_rec 1 1 1])) ∧
  fails_with NoActiveInstallation (VStr "PI-SN-001") VNone
    (sample_dm [closed_rec 1 1 1; open_rec 2 2 1])
    (remove_part "2024-05-01" (VStr "PI-SN-001") VNone
       (sample_dm [closed_rec 1 1 1; open_rec 2 2 1])) ∧
  data (remove_part "2024-05-01" (VStr "PI-SN-001") VNone
          (sample_dm [closed_rec 1 1 1; open_rec 2 2 1])).2
  = data (sample_dm [closed_rec 1 1 1; open_rec 2 2 1]).
Proof.
  split_and!.
  - apply (proj1 (remove_without_open_record "2024-05-01" (VStr "PI-SN-009") VNone
                    (sample_dm [open_rec 1 1 1]))).
    by_compute.
  - apply (proj1 (proj2 (remove_without_open_record "2024-05-01" (VStr "PI-SN-001")
                           VNone (sample_dm [closed_rec 1 1 1; open_rec 2 2 1])))
             sample_instance (VInt 1) [closed_rec 1 1 1; open_rec 2 2 1]);
      by_compute.
  - apply (proj2 (proj2 (remove_without_open_record "2024-05-01" (VStr "PI-SN-001")
                           VNone (sample_dm [closed_rec 1 1 1; open_rec 2 2 1])))).
    right. exists sample_instance, (VInt 1). split_and!; by_compute.
Defined.

(** C4. In a document where a part instance has two or more
    installation records without ["removal_date"], [remove_part] sets
    ["removal_date"] on the first of them in the order of the collection
    and changes nothing else: the history keeps its length, every other
    position keeps its record, and the instance has one open record
    fewer. *)
Theorem remove_closes_first_open_only today (p date : value) (dm : DataManager)
    (inst : gmap string value) (iid : value) (h : list (gmap string value)) :
  get_part_by_serial (data dm) p = Ok (Some inst) →
  inst !! "instance_id" = Some iid →
  data dm !! "installation_history" = Some h →
  all_have "instance_id" h →
  2 ≤ open_count (data dm) iid →
  ∃ pre r post,
    h = pre ++ r :: post ∧ Forall (λ x, ¬ open_for iid x) pre ∧ open_for iid r ∧
    let rd := if decide (date = VNone) then VStr today else date in
    let out := remove_part today p date dm in
    let h' := get_all_installation_history (data out.2) in
    out.1 = Ok () ∧
    data out.2 =
      <["installation_history" := pre ++ <["removal_date" := rd]> r :: post]> (data dm) ∧
    h' = pre ++ <["removal_date" := rd]> r :: post ∧
    length h' = length h ∧
    (∀ j, j ≠ length pre → h' !! j = h !! j) ∧
    open_count (data out.2) iid = open_count (data dm) iid - 1.
Proof.
  intros Hp Hi Hh Hkeys Hcount.
  assert (Hex : Exists (open_for iid) h).
  { destruct (decide (Exists (open_for iid) h)) as [?|Hno]; [done|].
    exfalso. unfold open_count in Hcount.
    rewrite (history_lookup _ _ Hh) in Hcount.
    rewrite (count_none (open_for iid) h) in Hcount; [lia|].
    apply Forall_forall. intros x Hx Hopen. apply Hno.
    apply Exists_exists. by exists x. }
  destruct (first_open _ _ Hex) as (pre & r & post & -> & Hr & Hpre).
  exists pre, r, post. split_and!; [done..|].
  intros rd out h'.
  assert (Hkeys' : all_have "instance_id" pre) by by apply Forall_app in Hkeys as [? _].
  pose proof (remove_part_removes today p date dm inst iid pre r post
                Hp Hi Hh Hkeys' Hpre Hr) as Hrun.
  cbn zeta in Hrun. fold rd in Hrun.
  assert (Hh' : h' = pre ++ <["removal_date" := rd]> r :: post).
  { subst h' out. rewrite Hrun. cbn [snd data]. apply history_insert. }
  split_and!.
  - subst out. by rewrite Hrun.
  - subst out. by rewrite Hrun.
  - done.
  - rewrite Hh', !length_app. done.
  - intros j Hj. rewrite Hh'.
    destruct (decide (j < length pre)) as [Hlt|Hge].
    + by rewrite !lookup_app_l.
    + rewrite !lookup_app_r by lia.
      destruct (j - length pre) as [|n] eqn:Hn; [lia|done].
  - unfold open_count. fold h'. rewrite Hh', (history_lookup _ _ Hh).
    rewrite !filter_app, !length_app.
    rewrite filter_cons_False by apply closed_after_removal.
    rewrite filter_cons_True by done. simpl. lia.
Qed.

Lemma remove_closes_first_open_only_witness :
  2 ≤ open_count
        (data (sample_dm [closed_rec 1 1 1; open_rec 2 1 1; open_rec 3 2 1;
                          open_rec 4 1 2])) (VInt 1) ∧
  ∃ pre r post,
    [closed_rec 1 1 1; open_rec 2 1 1; open_rec 3 2 1; open_rec 4 1 2]
      = pre ++ r :: post ∧
    Forall (λ x, ¬ open_for (VInt 1) x) pre ∧ open_for (VInt 1) r ∧
    get_all_installation_history
      (data (remove_part "2024-05-01" (VStr "PI-SN-001") VNone
               (sample_dm [closed_rec 1 1 1; open_rec 2 1 1; open_rec 3 2 1;
                           open_rec 4 1 2])).2)
      = pre ++ <["removal_date" := VStr "2024-05-01"]> r :: post.
Proof.
  split; [by_compute|].
  destruct (remove_closes_first_open_only "2024-05-01" (VStr "PI-SN-001") VNone
              (sample_dm [closed_rec 1 1 1; open_rec 2 1 1; open_rec 3 2 1;
                          open_rec 4 1 2])
              sample_instance (VInt 1)
              [closed_rec 1 1 1; open_rec 2 1 1; open_rec 3 2 1; open_rec 4 1 2])
    as (pre & r & post & Hsplit & Hpre & Hr & _ & _ & Hh' & _);
    [by_compute..|].
  exists pre, r, post. split_and!; [exact Hsplit|exact Hpre|exact Hr|exact Hh'].
Defined.

(** C5. On a collection whose records carry integers under the id key,
    [_get_next_id] returns one more than the largest of them, and 1 on
    the empty collection.  Consequently every run of adds to that
    collection succeeds and hands out ids that increase strictly from
    one add to the next and exceed every id the collection held before. *)
Theorem next_id_is_max_plus_one (id_key : string) (items : list (gmap string value))
    (ids : list Z) :
  id_values id_key items ids →
  _get_next_id [] id_key = Ok (VInt 1) ∧
  _get_next_id items id_key = Ok (VInt (next_of ids)) ∧
  (items ≠ [] →
     ∃ m, m ∈ ids ∧ (∀ z, z ∈ ids → (z ≤ m)%Z) ∧ next_of ids = (m + 1)%Z) ∧
  (∀ today now k calls dm,
     data dm !! k = Some items →
     Forall (λ c, add_target c = (k, id_key)) calls →
     ∃ rs new_ids dm',
       run_adds today now calls dm = (Ok rs, dm') ∧
       id_values id_key rs new_ids ∧
       length rs = length calls ∧
       data dm' !! k = Some (items ++ rs) ∧
       (∀ a b, a ∈ ids → b ∈ new_ids → (a < b)%Z) ∧
       (∀ i j a b, i < j → new_ids !! i = Some a → new_ids !! j = Some b →
                   (a < b)%Z)).
Proof.
  intros Hids. split_and!.
  - done.
  - by apply get_next_id_typed.
  - intros Hne. destruct Hids as [|item z items ids Hz Hrest]; [done|].
    exists (foldl Z.max z ids). split_and!.
    + apply foldl_max_elem.
    + intros x Hx. by apply foldl_max_upper.
    + done.
  - intros today now k calls dm Hk Hcalls.
    by eapply run_adds_spec.
Qed.

Lemma next_id_is_max_plus_one_witness :
  id_values "turbine_id" sample_turbines [1; 2]%Z ∧
  _get_next_id sample_turbines "turbine_id" = Ok (VInt 3) ∧
  (∃ m, m ∈ [1; 2]%Z ∧ (∀ z, z ∈ [1; 2]%Z → (z ≤ m)%Z) ∧
        next_of [1; 2]%Z = (m + 1)%Z) ∧
  ∃ rs new_ids dm',
    run_adds "2024-05-01" "2024-05-01T10:00:00" sample_adds (sample_dm [])
      = (Ok rs, dm') ∧
    id_values "turbine_id" rs new_ids ∧
    length rs = 3 ∧
    (∀ a b, a ∈ [1; 2]%Z → b ∈ new_ids → (a < b)%Z) ∧
    (∀ i j a b, i < j → new_ids !! i = Some a → new_ids !! j = Some b → (a < b)%Z).
Proof.
  assert (H : id_values "turbine_id" sample_turbines [1; 2]%Z) by by_compute.
  split; [exact H|].
  destruct (next_id_is_max_plus_one "turbine_id" sample_turbines [1; 2]%Z H)
    as (_ & Hnext & Hmax & Hrun).
  split; [exact Hnext|]. split; [apply Hmax; by_compute|].
  destruct (Hrun "2024-05-01" "2024-05-01T10:00:00" "turbines" sample_adds
              (sample_dm []))
    as (rs & new_ids & dm' & H1 & H2 & H3 & _ & H5 & H6); [by_compute..|].
  exists rs, new_ids, dm'. split_and!; [exact H1|exact H2|exact H3|exact H5|exact H6].
Defined.

(** ** Install, query, remove, query *)

Lemma get_all_part_instances_history (d : gmap string (list (gmap string value))) h :
  get_all_part_instances (<["installation_history" := h]> d) = get_all_part_instances d.
Proof.
  unfold get_all_part_instances, collection_or_empty. by rewrite lookup_insert_ne.
Qed.

Lemma all_have_snoc k items (r : gmap string value) v :
  all_have k items → r !! k = Some v → all_have k (items ++ [r]).
Proof.
  intros H Hr. apply Forall_app. split; [done|]. by repeat constructor.
Qed.

Lemma install_then_remove_holds today p t date rdate tid inst turbine dm :
  all_have "turbine_id" (get_all_installation_history (data dm)) →
  all_have "instance_id" (get_all_installation_history (data dm)) →
  all_have "instance_id" (get_all_part_instances (data dm)) →
  get_part_by_serial (data dm) p = Ok (Some inst) →
  get_turbine_by_serial (data dm) t = Ok (Some turbine) →
  turbine !! "turbine_id" = Some tid →
  data (install_part today p t date dm).2 ≠ data dm →
  install_then_remove today p t date rdate tid inst dm.
Proof.
  intros Hht Hhi Hpi Hp Ht Htid Hne.
  destruct (install_part_changed today p t date dm Hne)
    as (inst' & turbine' & iid & tid' & h & r & line & Hp' & Ht' & Hi & Htid' & Hh
        & Hscan & Hr1 & Hr2 & Hr3 & Hrun).
  rewrite Hp in Hp'. injection Hp' as <-.
  rewrite Ht in Ht'. injection Ht' as <-.
  rewrite Htid in Htid'. injection Htid' as <-.
  rewrite (history_lookup _ _ Hh) in Hht, Hhi.
  assert (Hr : open_for iid r) by done.
  assert (Hclosed : Forall (λ x, ¬ open_for iid x) h)
    by by eapply already_installed_false.
  assert (Hin : inst ∈ get_all_part_instances (data dm))
    by by eapply first_by_serial_Some.
  unfold install_then_remove. rewrite Hrun. cbn [snd data].
  set (d1 := <["installation_history" := h ++ [r]]> (data dm)).
  set (dm1 := mkDataManager d1 (Json d1) ((trace dm ++ [Saved]) ++ [Printed line])).
  pose proof (remove_part_removes today p rdate dm1 inst iid h r []) as Hrem.
  cbn zeta in Hrem. rewrite Hrem; cbn [snd data]; subst dm1; cbn [data]; subst d1.
  2: by rewrite get_part_by_serial_history.
  2: done. 2: by rewrite lookup_insert_eq. 2: done. 2: done. 2: done.
  rewrite insert_insert_eq.
  set (rd := if decide (rdate = VNone) then VStr today else rdate).
  split_and!.
  - eexists. split.
    + apply get_installed_parts_typed;
        rewrite ?history_insert, ?get_all_part_instances_history;
        [by eapply all_have_snoc|by eapply all_have_snoc|done].
    + apply list_elem_of_filter. rewrite get_all_part_instances_history.
      split; [|done]. exists iid. split; [done|].
      rewrite history_insert. apply Exists_app. right. by constructor.
  - intros Heq.
    apply (f_equal (λ d, get_all_installation_history d)) in Heq.
    rewrite !history_insert in Heq. apply app_inv_head in Heq.
    injection Heq as Heq. apply (f_equal (λ x, x !! "removal_date")) in Heq.
    rewrite lookup_insert_eq, Hr3 in Heq. done.
  - eexists. split.
    + apply get_installed_parts_typed;
        rewrite ?history_insert, ?get_all_part_instances_history; [| |done].
      * eapply all_have_snoc; [done|]. by rewrite lookup_insert_ne.
      * eapply all_have_snoc; [done|]. by rewrite lookup_insert_ne.
    + intros [(iid' & Hi' & Hex) _]%list_elem_of_filter.
      rewrite Hi in Hi'. injection Hi' as <-.
      rewrite history_insert in Hex. apply Exists_app in Hex as [Hex|Hex].
      * apply Exists_exists in Hex as (x & Hx & _ & Hopen).
        by eapply (proj1 (Forall_forall _ _) Hclosed).
      * apply Exists_cons in Hex as [(_ & Hopen)|Hex%Exists_nil]; [|done].
        by eapply closed_after_removal.
Qed.

(** C6. [get_installed_parts] returns exactly the part instances that
    have an installation record with the turbine id and without
    ["removal_date"]; an instance whose records for the turbine are all
    closed is left out.  After an [install_part] that installed part P
    in turbine T the result for T contains P, and after the following
    [remove_part] of P it does not. *)
Theorem installed_parts_exact today (dm : DataManager) :
  all_have "turbine_id" (get_all_installation_history (data dm)) →
  all_have "instance_id" (get_all_installation_history (data dm)) →
  all_have "instance_id" (get_all_part_instances (data dm)) →
  (∀ turbine_id,
     ∃ l, get_installed_parts (data dm) turbine_id = Ok l ∧
          ∀ inst, inst ∈ l ↔
                  inst ∈ get_all_part_instances (data dm) ∧
                  installed_in (data dm) turbine_id inst) ∧
  (∀ p t date rdate inst turbine turbine_id,
     get_part_by_serial (data dm) p = Ok (Some inst) →
     get_turbine_by_serial (data dm) t = Ok (Some turbine) →
     turbine !! "turbine_id" = Some turbine_id →
     data (install_part today p t date dm).2 ≠ data dm →
     install_then_remove today p t date rdate turbine_id inst dm).
Proof.
  intros Hht Hhi Hpi. split.
  - intros tid. eexists. split; [by apply get_installed_parts_typed|].
    intros inst. rewrite list_elem_of_filter. tauto.
  - intros p t date rdate inst turbine tid Hp Ht Htid Hne.
    by eapply install_then_remove_holds.
Qed.

Lemma installed_parts_exact_witness :
  (∃ l, get_installed_parts (data (sample_dm [closed_rec 1 1 1; open_rec 2 2 1]))
          (VInt 1) = Ok l ∧
        ∀ inst, inst ∈ l ↔
                inst ∈ get_all_part_instances
                         (data (sample_dm [closed_rec 1 1 1; open_rec 2 2 1])) ∧
                installed_in (data (sample_dm [closed_rec 1 1 1; open_rec 2 2 1]))
                             (VInt 1) inst) ∧
  install_then_remove "2024-05-01" (VStr "PI-SN-001") (VStr "T-SN-101") VNone VNone
    (VInt 1) sample_instance (sample_dm [closed_rec 1 1 1; open_rec 2 2 1]).
Proof.
  destruct (installed_parts_exact "2024-05-01"
              (sample_dm [closed_rec 1 1 1; open_rec 2 2 1]))
    as [Hquery Hcycle]; [by_compute..|].
  split; [apply Hquery|].
  apply (Hcycle (VStr "PI-SN-001") (VStr "T-SN-101") VNone VNone sample_instance
           {[ "turbine_id" := VInt 1; "serial_number" := VStr "T-SN-101";
              "frame_type" := VStr "GE 1.5sle";
              "location" := VStr "Wind Farm Alpha" ]} (VInt 1)); by_compute.
Defined.

(** C10. The sequence [get_installed_parts] returns is the collection
    of part instances with the entries that are not installed in the
    turbine struck out: its entries come in the order of
    ["part_instances"], not in the order of the installation records,
    and an entry of the collection is returned once however many open
    records of the turbine name its instance. *)
Theorem installed_parts_once_in_collection_order
    (d : gmap string (list (gmap string value))) (turbine_id : value) :
  all_have "turbine_id" (get_all_installation_history d) →
  all_have "instance_id" (get_all_installation_history d) →
  all_have "instance_id" (get_all_part_instances d) →
  ∃ l, get_installed_parts d turbine_id = Ok l ∧
       l = filter (installed_in d turbine_id) (get_all_part_instances d) ∧
       l `sublist_of` get_all_part_instances d ∧
       (NoDup (get_all_part_instances d) → NoDup l).
Proof.
  intros Hht Hhi Hpi. eexists. split; [by apply get_installed_parts_typed|].
  split_and!; [done|apply sublist_filter|apply NoDup_filter].
Qed.

Lemma installed_parts_once_in_collection_order_witness :
  ∃ l, get_installed_parts
         (sample_doc [open_rec 1 2 1; open_rec 2 1 1; open_rec 3 1 1] []) (VInt 1)
       = Ok l ∧
       l = sample_instances ∧ NoDup l.
Proof.
  destruct (installed_parts_once_in_collection_order
              (sample_doc [open_rec 1 2 1; open_rec 2 1 1; open_rec 3 1 1] [])
              (VInt 1))
    as (l & Hl & Hfilter & _ & Hnodup); [by_compute..|].
  exists l. split_and!; [exact Hl| |apply Hnodup; by_compute].
  rewrite Hfilter. by_compute.
Defined.

(** ** Records whose ["removal_date"] is present *)

Lemma closed_when_present iid (r : gmap string value) v :
  r !! "removal_date" = Some v → ¬ open_for iid r.
Proof. unfold open_for, open_record. intros -> [_ ?]. done. Qed.

Lemma already_installed_none h inst iid :
  inst !! "instance_id" = Some iid →
  all_have "instance_id" h →
  Forall (λ x, ¬ open_for iid x) h →
  already_installed h inst = Ok false.
Proof.
  intros Hi Hkeys Hclosed. rewrite (already_installed_find_active h inst 0).
  by rewrite (find_active_absent h inst iid 0).
Qed.

Lemma installed_instance_ids_skip pre (r : gmap string value) post tid :
  is_Some (r !! "turbine_id") → is_Some (r !! "removal_date") →
  installed_instance_ids (pre ++ r :: post) tid =
  installed_instance_ids (pre ++ post) tid.
Proof.
  intros [t Ht] Hrd. induction pre as [|x pre IH].
  - cbn [app installed_instance_ids]; eval_result.
    rewrite (getitem_Some _ _ _ Ht); eval_result.
    apply has_key_true in Hrd. rewrite Hrd. by rewrite andb_false_r.
  - cbn [app installed_instance_ids]; eval_result. by rewrite IH.
Qed.

(** C9. The three functions take a record for open exactly when it has
    no ["removal_date"] key.  A record whose ["removal_date"] is present
    with value [None] therefore does not block [install_part] for its
    instance (the install goes through when no other record of the
    instance is open), keeps its place and value through every
    [remove_part] (it is never the record that gets patched), and can be
    struck from the history without changing what
    [get_installed_parts] returns. *)
Theorem none_removal_date_is_closed (r : gmap string value) :
  r !! "removal_date" = Some VNone →
  (∀ today p t date dm inst turbine iid tid pre post nid,
     get_part_by_serial (data dm) p = Ok (Some inst) →
     get_turbine_by_serial (data dm) t = Ok (Some turbine) →
     inst !! "instance_id" = Some iid →
     turbine !! "turbine_id" = Some tid →
     data dm !! "installation_history" = Some (pre ++ r :: post) →
     all_have "instance_id" (pre ++ r :: post) →
     Forall (λ x, ¬ open_for iid x) (pre ++ post) →
     _get_next_id (pre ++ r :: post) "installation_id" = Ok nid →
     ∃ r', open_for iid r' ∧ r' !! "turbine_id" = Some tid ∧
           (install_part today p t date dm).1 = Ok () ∧
           data (install_part today p t date dm).2 =
             <["installation_history" := (pre ++ r :: post) ++ [r']]> (data dm)) ∧
  (∀ today p date dm j,
     get_all_installation_history (data dm) !! j = Some r →
     get_all_installation_history (data (remove_part today p date dm).2) !! j
       = Some r) ∧
  (∀ (d : gmap string (list (gmap string value))) turbine_id pre post,
     d !! "installation_history" = Some (pre ++ r :: post) →
     is_Some (r !! "turbine_id") →
     get_installed_parts d turbine_id =
     get_installed_parts (<["installation_history" := pre ++ post]> d) turbine_id).
Proof.
  intros Hnone. split_and!.
  - intros today p t date dm inst turbine iid tid pre post nid
      Hp Ht Hi Htid Hh Hkeys Hclosed Hid.
    assert (Hscan : already_installed (pre ++ r :: post) inst = Ok false).
    { apply (already_installed_none _ _ iid); [done|done|].
      apply Forall_app in Hclosed as [Hpre Hpost].
      apply Forall_app. split; [done|]. constructor; [|done].
      by eapply closed_when_present. }
    destruct (install_part_installs today p t date dm inst turbine iid tid _ nid
                Hp Ht Hi Htid Hh Hscan Hid)
      as (r' & line & H1 & H2 & H3 & _ & Hrun).
    exists r'. rewrite Hrun. by split_and!.
  - intros today p date dm j Hj.
    destruct (remove_part_outcome today p date dm)
      as [(res & tr & -> & _)
         |(inst & iid & pre & r0 & post & line & _ & _ & Hh & Hr0 & _ & Hrun)];
      [done|].
    cbn zeta in Hrun. rewrite Hrun. cbn [snd data]. rewrite history_insert.
    rewrite (history_lookup _ _ Hh) in Hj.
    destruct (decide (j < length pre)) as [Hlt|Hge].
    + rewrite lookup_app_l in Hj by done. by rewrite lookup_app_l.
    + rewrite lookup_app_r in Hj by lia. rewrite lookup_app_r by lia.
      destruct (j - length pre) as [|n]; [|done].
      injection Hj as ->. exfalso. by eapply closed_when_present.
  - intros d tid pre post Hh Htid. unfold get_installed_parts.
    rewrite history_insert, (history_lookup _ _ Hh).
    rewrite get_all_part_instances_history.
    by rewrite installed_instance_ids_skip by eauto.
Qed.

Lemma none_removal_date_is_closed_witness :
  none_rec 1 1 2 !! "removal_date" = Some VNone ∧
  (∃ r', open_for (VInt 1) r' ∧ r' !! "turbine_id" = Some (VInt 1) ∧
         (install_part "2024-05-01" (VStr "PI-SN-001") (VStr "T-SN-101") VNone
            (sample_dm [none_rec 1 1 2])).1 = Ok () ∧
         data (install_part "2024-05-01" (VStr "PI-SN-001") (VStr "T-SN-101") VNone
                 (sample_dm [none_rec 1 1 2])).2 =
           <["installation_history" := [none_rec 1 1 2] ++ [r']]>
             (data (sample_dm [none_rec 1 1 2]))) ∧
  get_all_installation_history
    (data (remove_part "2024-05-01" (VStr "PI-SN-001") VNone
             (sample_dm [none_rec 1 1 2; open_rec 2 1 1])).2) !! 0
    = Some (none_rec 1 1 2) ∧
  get_installed_parts (sample_doc [none_rec 1 1 2] []) (VInt 2) =
  get_installed_parts
    (<["installation_history" := []]> (sample_doc [none_rec 1 1 2] [])) (VInt 2).
Proof.
  assert (H : none_rec 1 1 2 !! "removal_date" = Some VNone) by by_compute.
  destruct (none_removal_date_is_closed (none_rec 1 1 2) H)
    as (Hinstall & Hremove & Hquery).
  split_and!.
  - exact H.
  - apply (Hinstall "2024-05-01" (VStr "PI-SN-001") (VStr "T-SN-101") VNone
             (sample_dm [none_rec 1 1 2]) sample_instance
             {[ "turbine_id" := VInt 1; "serial_number" := VStr "T-SN-101";
                "frame_type" := VStr "GE 1.5sle";
                "location" := VStr "Wind Farm Alpha" ]}
             (VInt 1) (VInt 1) [] [] (VInt 2)); by_compute.
  - apply (Hremove "2024-05-01" (VStr "PI-SN-001") VNone
             (sample_dm [none_rec 1 1 2; open_rec 2 1 1]) 0).
    by_compute.
  - apply (Hquery (sample_doc [none_rec 1 1 2] []) (VInt 2) [] []); by_compute.
Defined.

(** ** The lifecycle query *)

Lemma select_by_instance_id_typed items iid :
  all_have "instance_id" items →
  select_by_instance_id items iid = Ok (filter (record_of iid) items).
Proof.
  induction 1 as [|r items [a Ha] _ IH]; [done|].
  cbn [select_by_instance_id]; eval_result.
  rewrite (getitem_Some _ _ _ Ha); eval_result. rewrite IH; eval_result.
  f_equal. destruct (py_eq a iid) eqn:Heq.
  - apply py_eq_true in Heq as ->. by rewrite filter_cons_True.
  - apply py_eq_false in Heq. rewrite filter_cons_False; [done|].
    unfold record_of. rewrite Ha. by intros [= ?].
Qed.

Lemma first_by_instance_id_Some items iid (r : gmap string value) :
  first_by_instance_id items iid = Ok (Some r) →
  r ∈ items ∧ r !! "instance_id" = Some iid.
Proof.
  induction items as [|item items IH]; [done|].
  cbn [first_by_instance_id]; eval_result.
  destruct (getitem item "instance_id") as [a|] eqn:Ha; eval_result; [|done].
  destruct (py_eq a iid) eqn:Heq.
  - intros [= <-]. apply py_eq_true in Heq as ->.
    split; [apply elem_of_cons; by left | by apply getitem_Ok].
  - intros [Hin Hr]%IH. split; [apply elem_of_cons; by right | done].
Qed.

Lemma first_by_instance_id_absent items iid :
  all_have "instance_id" items →
  Forall (λ r, ¬ record_of iid r) items →
  first_by_instance_id items iid = Ok None.
Proof.
  induction 1 as [|item items [a Ha] _ IH]; [done|].
  intros [Hitem Hrest]%Forall_cons.
  cbn [first_by_instance_id]; eval_result.
  rewrite (getitem_Some _ _ _ Ha); eval_result.
  destruct (py_eq a iid) eqn:Heq; [|by apply IH].
  apply py_eq_true in Heq as ->. done.
Qed.

(** What the query does return: the message when no part instance has
    the id, and otherwise the instance with its installation records
    and its maintenance logs, each in the order of its collection. *)
Lemma get_part_lifecycle_not_found (d : gmap string (list (gmap string value))) iid :
  all_have "instance_id" (get_all_part_instances d) →
  Forall (λ r, ¬ record_of iid r) (get_all_part_instances d) →
  get_part_lifecycle d iid = Ok (LMessage "Part instance not found.").
Proof.
  intros Hkeys Hnone. unfold get_part_lifecycle.
  by rewrite (first_by_instance_id_absent _ _ Hkeys Hnone).
Qed.

Lemma get_part_lifecycle_found (d : gmap string (list (gmap string value))) iid inst :
  first_by_instance_id (get_all_part_instances d) iid = Ok (Some inst) →
  all_have "instance_id" (get_all_installation_history d) →
  all_have "instance_id" (get_all_maintenance_logs d) →
  get_part_lifecycle d iid =
    Ok (LDict (<["part_details" := FRecord inst]>
               (<["installation_history" :=
                    FList (filter (record_of iid) (get_all_installation_history d))]>
               (<["maintenance_log" :=
                    FList (filter (record_of iid) (get_all_maintenance_logs d))]> ∅)))).
Proof.
  intros Hfind Hh Hl. unfold get_part_lifecycle. rewrite Hfind; eval_result.
  destruct (first_by_instance_id_Some _ _ _ Hfind) as [_ Hi].
  rewrite (truthy_keyed inst "instance_id" iid Hi).
  rewrite (select_by_instance_id_typed _ _ Hh); eval_result.
  by rewrite (select_by_instance_id_typed _ _ Hl).
Qed.

(** The dict never has a ["part_master"] entry. *)
Lemma get_part_lifecycle_no_master (d : gmap string (list (gmap string value))) iid v :
  get_part_lifecycle d iid = Ok (LDict v) → v !! "part_master" = None.
Proof.
  unfold get_part_lifecycle.
  destruct (first_by_instance_id _ _) as [o|]; eval_result; [|done].
  destruct (truthy o); [|done].
  destruct (select_by_instance_id (get_all_installation_history d) iid);
    eval_result; [|done].
  destruct (select_by_instance_id (get_all_maintenance_logs d) iid);
    eval_result; [|done].
  intros [= <-]. by simplify_map_eq.
Qed.

(** C7. [get_part_lifecycle] at a part instance whose part master is in
    the document: the dict it returns holds the instance, its
    installation records and its maintenance logs in collection order,
    and no part master; the lookup of ["part_master"] that the detail
    window makes on the result finds nothing. *)
Theorem part_lifecycle_omits_part_master :
  get_part_lifecycle
    (sample_doc [closed_rec 1 1 1; open_rec 2 2 1; open_rec 3 1 2] sample_logs)
    (VInt 1) = Ok (LDict sample_view) ∧
  sample_master ∈ get_all_part_masters
                    (sample_doc [closed_rec 1 1 1; open_rec 2 2 1; open_rec 3 1 2]
                       sample_logs) ∧
  sample_master !! "part_number" = sample_instance !! "part_number" ∧
  sample_view !! "part_master" = None.
Proof.
  split_and!; [by_compute..|].
  by apply (get_part_lifecycle_no_master
              (sample_doc [closed_rec 1 1 1; open_rec 2 2 1; open_rec 3 1 2]
                 sample_logs) (VInt 1)); by_compute.
Qed.

(** C8. [DataManager(filepath)] when the file does not exist: the load
    succeeds and saves a document of four empty collections under the
    keys turbines, part_masters, part_instances and
    installation_records.  The keys part_master, installation_history
    and maintenance_log that the core subscripts are absent, so the adds
    of part masters and maintenance logs and a first [install_part]
    raise [KeyError] on the fresh document. *)
Theorem load_missing_store_keys :
  let out := DataManager_init NoFile in
  let fresh := out.2 in
  out.1 = Ok () ∧
  data fresh = default_data ∧
  dom (data fresh) =
    ({[ "turbines"; "part_masters"; "part_instances"; "installation_records" ]}
       : gset string) ∧
  (add_part_master (VStr "PN-1001") (VStr "Main Bearing") (VStr "") fresh).1
    = Raise (KeyError "part_master") ∧
  (add_maintenance_log "2024-05-01T10:00:00" (VInt 1) (VStr "Inspected.") VNone
     fresh).1 = Raise (KeyError "maintenance_log") ∧
  ((_ ← add_turbine (VStr "T-SN-101") (VStr "GE 1.5sle") (VStr "");
    _ ← add_part_instance (VStr "PN-1001") (VStr "PI-SN-001");
    install_part "2024-05-01" (VStr "PI-SN-001") (VStr "T-SN-101") VNone) fresh).1
    = Raise (KeyError "installation_history").
Proof. intros out fresh. split_and!; by_compute. Qed.

(** * Further properties of the program *)

(** ** Outcomes of the mutating operations *)

(** An add either raises before it touches anything, or appends the
    record it returns to its collection, saves once and prints a line. *)
Lemma run_add_outcome today now c dm :
  (∃ e, run_add today now c dm = (Raise e, dm)) ∨
  (∃ items (r : gmap string value) line,
     data dm !! (add_target c).1 = Some items ∧
     run_add today now c dm =
       (Ok r, mkDataManager (<[(add_target c).1 := items ++ [r]]> (data dm))
                (Json (<[(add_target c).1 := items ++ [r]]> (data dm)))
                ((trace dm ++ [Saved]) ++ [Printed line]))).
Proof.
  destruct c; cbn [run_add add_target fst];
    [unfold add_turbine | unfold add_part_instance
     | unfold add_installation_record | unfold add_maintenance_log];
    rewrite bind_M; unfold collection;
    (destruct (data dm !! _) as [items|] eqn:Hk; [|left; eauto]);
    rewrite bind_M; unfold lift;
    (destruct (_get_next_id items _) as [nid|e]; [|left; eauto]);
    right; eexists items, _, _; (split; [done|]);
    eval_M; by rewrite (alter_alt_Some _ _ _ _ Hk).
Qed.

Lemma add_part_master_outcome p d m dm :
  (∃ e, add_part_master p d m dm = (Raise e, dm)) ∨
  (∃ items (r : gmap string value) line,
     data dm !! "part_master" = Some items ∧
     add_part_master p d m dm =
       (Ok r, mkDataManager (<["part_master" := items ++ [r]]> (data dm))
                (Json (<["part_master" := items ++ [r]]> (data dm)))
                ((trace dm ++ [Saved]) ++ [Printed line]))).
Proof.
  unfold add_part_master. rewrite bind_M; unfold collection.
  destruct (data dm !! "part_master") as [items|] eqn:Hk; [|left; eauto].
  right. eexists items, _, _. split; [done|].
  eval_M. by rewrite (alter_alt_Some _ _ _ _ Hk).
Qed.

Lemma snoc_changes {A} (l : list A) x : l ++ [x] ≠ l.
Proof.
  intros H. apply (f_equal length) in H. rewrite length_app in H. simpl in H. lia.
Qed.

Lemma removal_changes (pre post : list (gmap string value)) r rd :
  open_record r → pre ++ <["removal_date" := rd]> r :: post ≠ pre ++ r :: post.
Proof.
  intros Hr H. apply app_inv_head in H. injection H as H.
  apply (f_equal (λ x, x !! "removal_date")) in H.
  rewrite lookup_insert_eq in H. unfold open_record in Hr. by rewrite Hr in H.
Qed.

(** Every operation either leaves document and file alone and does not
    save, or replaces one collection by a different list, saves the new
    document and prints one line after the save. *)
Lemma run_operation_outcome today now op dm :
  (∃ tr, run_operation today now op dm =
           mkDataManager (data dm) (file dm) (trace dm ++ tr) ∧ saves tr = 0) ∨
  (∃ k old new line,
     data dm !! k = Some old ∧ new ≠ old ∧
     run_operation today now op dm =
       mkDataManager (<[k := new]> (data dm)) (Json (<[k := new]> (data dm)))
         ((trace dm ++ [Saved]) ++ [Printed line])).
Proof.
  destruct op as [c|p d m|[p t date|p date]]; cbn [run_operation run_call].
  - destruct (run_add_outcome today now c dm)
      as [[e ->]|(items & r & line & Hk & ->)].
    + left. exists []. split; [apply same_state|done].
    + right. exists (add_target c).1, items, (items ++ [r]), line.
      split_and!; [done|apply snoc_changes|done].
  - destruct (add_part_master_outcome p d m dm)
      as [[e ->]|(items & r & line & Hk & ->)].
    + left. exists []. split; [apply same_state|done].
    + right. exists "part_master", items, (items ++ [r]), line.
      split_and!; [done|apply snoc_changes|done].
  - destruct (install_part_outcome today p t date dm)
      as [(res & tr & -> & Htr)
         |(inst & turbine & iid & tid & h & r & line & _ & _ & _ & _ & Hh & _ & _
           & _ & _ & ->)].
    + left. by exists tr.
    + right. exists "installation_history", h, (h ++ [r]), line.
      split_and!; [done|apply snoc_changes|done].
  - destruct (remove_part_outcome today p date dm)
      as [(res & tr & -> & Htr)
         |(inst & iid & pre & r & post & line & _ & _ & Hh & Hr & _ & Hrun)].
    + left. by exists tr.
    + right. cbn zeta in Hrun. rewrite Hrun.
      eexists "installation_history", (pre ++ r :: post), _, line.
      split_and!; [done|apply removal_changes, Hr|done].
Qed.

Lemma saves_saved_printed line : saves [Saved] = 1 ∧ saves [Printed line] = 0.
Proof. split; reflexivity. Qed.

Lemma insert_changes (d : gmap string (list (gmap string value))) k old new :
  d !! k = Some old → new ≠ old → <[k := new]> d ≠ d.
Proof.
  intros Hk Hne H. apply (f_equal (λ m, m !! k)) in H.
  rewrite lookup_insert_eq, Hk in H. by injection H.
Qed.

(** X1. As long as the writes of [save_data] go through, as they do in
    this embedding: across every sequence of adds, installs and removes,
    a data manager whose file holds its document keeps that property
    after each operation, whether the operation succeeds, reports an
    error or raises [KeyError] or [TypeError] before its save. *)
Theorem file_stays_in_sync today now (ops : list operation) (dm : DataManager) :
  in_sync dm →
  Forall in_sync (run_operations today now ops dm).
Proof.
  revert dm. induction ops as [|op ops IH]; intros dm Hsync; [by constructor|].
  cbn [run_operations].
  assert (in_sync (run_operation today now op dm)) as Hnext.
  { destruct (run_operation_outcome today now op dm)
      as [(tr & -> & _)|(k & old & new & line & _ & _ & ->)]; [exact Hsync|done]. }
  constructor; [exact Hnext|by apply IH].
Qed.

Lemma file_stays_in_sync_witness :
  in_sync (sample_dm [closed_rec 1 1 1]) ∧
  Forall in_sync
    (run_operations "2024-05-01" "2024-05-01T10:00:00" sample_operations
       (sample_dm [closed_rec 1 1 1])).
Proof.
  split; [reflexivity|].
  apply (file_stays_in_sync "2024-05-01" "2024-05-01T10:00:00" sample_operations
           (sample_dm [closed_rec 1 1 1])).
  reflexivity.
Defined.

(** X2. Every add, install and remove calls [save_data] exactly once
    when it changes the document and not at all when it does not. *)
Theorem one_save_per_change today now (op : operation) (dm : DataManager) :
  saves (trace (run_operation today now op dm)) =
  saves (trace dm) +
  (if decide (data (run_operation today now op dm) = data dm) then 0 else 1).
Proof.
  destruct (run_operation_outcome today now op dm)
    as [(tr & -> & Htr)|(k & old & new & line & Hk & Hne & ->)]; cbn [data trace].
  - rewrite decide_True by done. rewrite saves_app. lia.
  - rewrite decide_False by by apply (insert_changes _ _ old).
    rewrite !saves_app. destruct (saves_saved_printed line) as [-> ->]. lia.
Qed.

(** ** The installation history is never cut *)

Lemma patched_trans (r1 r2 r3 : gmap string value) :
  patched r1 r2 → patched r2 r3 → patched r1 r3.
Proof.
  intros [->|(Hopen & rd & ->)] H23; [done|].
  destruct H23 as [->|(Hopen' & _)].
  - right. eauto.
  - exfalso. unfold open_record in Hopen'. by rewrite lookup_insert_eq in Hopen'.
Qed.

Lemma history_kept_refl (d : gmap string (list (gmap string value))) : history_kept d d.
Proof. split; [done|]. intros j r Hj. exists r. split; [done|by left]. Qed.

Lemma history_kept_trans (d1 d2 d3 : gmap string (list (gmap string value))) :
  history_kept d1 d2 → history_kept d2 d3 → history_kept d1 d3.
Proof.
  intros [Hk12 Hh12] [Hk23 Hh23]. split.
  - intros k Hk. by rewrite Hk23, Hk12.
  - intros j r Hj. destruct (Hh12 j r Hj) as (r' & Hj' & Hp).
    destruct (Hh23 j r' Hj') as (r'' & Hj'' & Hp').
    exists r''. split; [done|]. by eapply patched_trans.
Qed.

Lemma run_call_history_kept today c dm :
  history_kept (data dm) (data (run_call today c dm).2).
Proof.
  destruct c as [p t date|p date]; cbn [run_call].
  - destruct (install_part_outcome today p t date dm)
      as [(res & tr & -> & _)
         |(inst & turbine & iid & tid & h & r & line & _ & _ & _ & _ & Hh & _ & _
           & _ & _ & ->)]; [apply history_kept_refl|].
    cbn [snd data]. split.
    + intros k Hk. by rewrite lookup_insert_ne.
    + intros j x Hj. rewrite (history_lookup _ _ Hh) in Hj.
      exists x. rewrite history_insert. split; [|by left].
      by apply lookup_app_l_Some.
  - destruct (remove_part_outcome today p date dm)
      as [(res & tr & -> & _)
         |(inst & iid & pre & r & post & line & _ & _ & Hh & Hr & _ & Hrun)];
      [apply history_kept_refl|].
    cbn zeta in Hrun. rewrite Hrun. cbn [snd data]. split.
    + intros k Hk. by rewrite lookup_insert_ne.
    + intros j x Hj. rewrite (history_lookup _ _ Hh) in Hj.
      rewrite history_insert.
      destruct (decide (j < length pre)) as [Hlt|Hge].
      * rewrite lookup_app_l in Hj by done. exists x.
        split; [by rewrite lookup_app_l|by left].
      * rewrite lookup_app_r in Hj by lia. rewrite lookup_app_r by lia.
        destruct (j - length pre) as [|n].
        -- injection Hj as <-. eexists. split; [done|].
           right. split; [apply Hr|eauto].
        -- exists x. split; [done|by left].
Qed.

(** X3. Through every sequence of [install_part] and [remove_part]
    calls the other collections stay as they are and no installation
    record is deleted, moved or rewritten: each record keeps its
    position and is either unchanged or was open and gained a
    ["removal_date"]; in particular the history never gets shorter and a
    closed record is never touched again. *)
Theorem history_is_patch_only today (calls : list call) (dm : DataManager) :
  Forall (λ dm',
            history_kept (data dm) (data dm') ∧
            length (get_all_installation_history (data dm))
              ≤ length (get_all_installation_history (data dm')) ∧
            (∀ j r, get_all_installation_history (data dm) !! j = Some r →
                    is_Some (r !! "removal_date") →
                    get_all_installation_history (data dm') !! j = Some r))
         (run_calls today calls dm).
Proof.
  assert (Hall : Forall (λ dm', history_kept (data dm) (data dm'))
                        (run_calls today calls dm)).
  { assert (∀ d0, history_kept d0 (data dm) →
                  Forall (λ dm', history_kept d0 (data dm'))
                         (run_calls today calls dm)) as Hgen.
    { revert dm. induction calls as [|c calls IH]; intros dm d0 H0;
        [by constructor|].
      cbn [run_calls].
      assert (history_kept d0 (data (run_call today c dm).2)) as H1
        by (eapply history_kept_trans; [exact H0|apply run_call_history_kept]).
      constructor; [exact H1|by apply IH]. }
    apply Hgen, history_kept_refl. }
  eapply Forall_impl; [exact Hall|]. intros dm' [Hk Hh]. split_and!.
  - by split.
  - destruct (decide (length (get_all_installation_history (data dm))
                      ≤ length (get_all_installation_history (data dm'))))
      as [?|Hlt]; [done|]. exfalso.
    destruct (get_all_installation_history (data dm)
                !! length (get_all_installation_history (data dm'))) as [r|] eqn:Hr.
    + destruct (Hh _ r Hr) as (r' & Hr' & _).
      apply lookup_lt_Some in Hr'. lia.
    + apply lookup_ge_None in Hr. lia.
  - intros j r Hj [v Hv]. destruct (Hh j r Hj) as (r' & Hj' & [->|(Hopen & _)]);
      [done|]. unfold open_record in Hopen. by rewrite Hv in Hopen.
Qed.

(** ** Missing collections and failed lookups *)

(** X4. An add whose collection key is missing from the document raises
    [KeyError] for that key and leaves the data manager as it was; so do
    [remove_part] and [install_part] for the installation history, once
    the lookups before the subscript went through.  The lookups by
    serial number read a missing collection as empty instead. *)
Theorem missing_collection_raises today now (dm : DataManager) :
  (∀ c, data dm !! (add_target c).1 = None →
        run_add today now c dm = (Raise (KeyError (add_target c).1), dm)) ∧
  (∀ p d m, data dm !! "part_master" = None →
            add_part_master p d m dm = (Raise (KeyError "part_master"), dm)) ∧
  (∀ p date inst,
     data dm !! "installation_history" = None →
     get_part_by_serial (data dm) p = Ok (Some inst) →
     remove_part today p date dm = (Raise (KeyError "installation_history"), dm)) ∧
  (∀ p t date inst turbine iid tid,
     data dm !! "installation_history" = None →
     get_part_by_serial (data dm) p = Ok (Some inst) →
     get_turbine_by_serial (data dm) t = Ok (Some turbine) →
     inst !! "instance_id" = Some iid →
     turbine !! "turbine_id" = Some tid →
     install_part today p t date dm = (Raise (KeyError "installation_history"), dm)) ∧
  (∀ p t, (data dm !! "part_instances" = None → get_part_by_serial (data dm) p = Ok None) ∧
          (data dm !! "turbines" = None → get_turbine_by_serial (data dm) t = Ok None)).
Proof.
  split_and!.
  - intros c Hk.
    destruct c; cbn [run_add add_target fst] in *;
      [unfold add_turbine | unfold add_part_instance
       | unfold add_installation_record | unfold add_maintenance_log];
      rewrite bind_M; unfold collection; by rewrite Hk.
  - intros p d m Hk. unfold add_part_master.
    rewrite bind_M; unfold collection. by rewrite Hk.
  - intros p date inst Hk Hp. unfold remove_part.
    rewrite bind_M; cbn [read]. rewrite Hp, (truthy_first_by_serial _ _ _ Hp).
    rewrite bind_M; unfold collection. by rewrite Hk.
  - intros p t date inst turbine iid tid Hk Hp Ht Hi Htid. unfold install_part.
    rewrite bind_M; cbn [read]. rewrite Hp, (truthy_first_by_serial _ _ _ Hp).
    rewrite bind_M; cbn [read]. rewrite Ht, (truthy_first_by_serial _ _ _ Ht).
    rewrite bind_M; cbn [read].
    unfold get_all_installation_history, collection_or_empty. rewrite Hk.
    cbn [default already_installed].
    rewrite bind_M; cbn [lift]. rewrite (getitem_Some _ _ _ Hi).
    rewrite bind_M; cbn [lift]. rewrite (getitem_Some _ _ _ Htid).
    rewrite bind_M. unfold add_installation_record.
    rewrite bind_M; unfold collection. by rewrite Hk.
  - intros p t. split; intros Hk.
    + unfold get_part_by_serial, get_all_part_instances, collection_or_empty.
      by rewrite Hk.
    + unfold get_turbine_by_serial, get_all_turbines, collection_or_empty.
      by rewrite Hk.
Qed.

Lemma missing_collection_raises_witness :
  run_add "2024-05-01" "2024-05-01T10:00:00"
    (AddMaintenanceLog (VInt 1) (VStr "Inspected.") VNone) partial_dm
    = (Raise (KeyError "maintenance_log"), partial_dm) ∧
  add_part_master (VStr "PN-1001") (VStr "Main Bearing") (VStr "") partial_dm
    = (Raise (KeyError "part_master"), partial_dm) ∧
  remove_part "2024-05-01" (VStr "PI-SN-001") VNone partial_dm
    = (Raise (KeyError "installation_history"), partial_dm) ∧
  install_part "2024-05-01" (VStr "PI-SN-001") (VStr "T-SN-101") VNone partial_dm
    = (Raise (KeyError "installation_history"), partial_dm) ∧
  get_part_by_serial (data (mkDataManager ∅ NoFile [])) (VStr "PI-SN-001") = Ok None.
Proof.
  destruct (missing_collection_raises "2024-05-01" "2024-05-01T10:00:00" partial_dm)
    as (Hadd & Hmaster & Hremove & Hinstall & _).
  split_and!.
  - apply (Hadd (AddMaintenanceLog (VInt 1) (VStr "Inspected.") VNone)). by_compute.
  - apply Hmaster. by_compute.
  - apply (Hremove _ _ sample_instance); by_compute.
  - apply (Hinstall _ _ _ sample_instance
             {[ "turbine_id" := VInt 1; "serial_number" := VStr "T-SN-101";
                "frame_type" := VStr "GE 1.5sle";
                "location" := VStr "Wind Farm Alpha" ]} (VInt 1) (VInt 1));
      by_compute.
  - apply (proj1 (proj2 (proj2 (proj2 (proj2
             (missing_collection_raises "2024-05-01" "2024-05-01T10:00:00"
                (mkDataManager ∅ NoFile []))))) (VStr "PI-SN-001") VNone)).
    by_compute.
Defined.

(** X5. [install_part] looks the part up first: when no part instance
    has the serial number it reports PartNotFound without reading the
    turbines, and when the part is found and no turbine has the serial
    number it reports TurbineNotFound without reading the installation
    history.  Both leave the data manager unchanged but for the line. *)
Theorem install_reports_missing_part_first today (p t date : value)
    (dm : DataManager) :
  (get_part_by_serial (data dm) p = Ok None →
     fails_with PartNotFound p t dm (install_part today p t date dm)) ∧
  (∀ inst,
     get_part_by_serial (data dm) p = Ok (Some inst) →
     get_turbine_by_serial (data dm) t = Ok None →
     fails_with TurbineNotFound p t dm (install_part today p t date dm)).
Proof.
  split.
  - intros Hp. unfold fails_with, install_part.
    rewrite bind_M; cbn [read]. by rewrite Hp.
  - intros inst Hp Ht. unfold fails_with, install_part.
    rewrite bind_M; cbn [read]. rewrite Hp, (truthy_first_by_serial _ _ _ Hp).
    rewrite bind_M; cbn [read]. by rewrite Ht.
Qed.

Lemma install_reports_missing_part_first_witness :
  fails_with PartNotFound (VStr "PI-SN-404") (VStr "T-SN-404") (sample_dm [])
    (install_part "2024-05-01" (VStr "PI-SN-404") (VStr "T-SN-404") VNone
       (sample_dm [])) ∧
  fails_with TurbineNotFound (VStr "PI-SN-001") (VStr "T-SN-404") (sample_dm [])
    (install_part "2024-05-01" (VStr "PI-SN-001") (VStr "T-SN-404") VNone
       (sample_dm [])).
Proof.
  split.
  - apply (proj1 (install_reports_missing_part_first "2024-05-01" (VStr "PI-SN-404")
                    (VStr "T-SN-404") VNone (sample_dm []))).
    by_compute.
  - apply (proj2 (install_reports_missing_part_first "2024-05-01" (VStr "PI-SN-001")
                    (VStr "T-SN-404") VNone (sample_dm [])) sample_instance);
      by_compute.
Defined.

(** ** [_get_next_id] on any collection *)

(** [max] over values that are not all integers raises [TypeError] or
    returns a value that is not an integer. *)
Lemma py_max_from_non_int rest : ∀ cur,
  ¬ is_int cur ∨ Exists (λ v, ¬ is_int v) rest →
  match py_max_from cur rest with
  | Ok v => ¬ is_int v
  | Raise e => e = TypeError
  end.
Proof.
  induction rest as [|x rest IH]; intros cur Hbad.
  - destruct Hbad as [?|?%Exists_nil]; done.
  - cbn [py_max_from]; eval_result.
    destruct x as [|zx|sx], cur as [|zc|sc]; cbn [py_gt]; eval_result; try done.
    + apply IH. right. destruct Hbad as [Hc|Hex].
      * exfalso. apply Hc. by eexists.
      * apply Exists_cons in Hex as [Hx|?]; [|done]. exfalso. apply Hx. by eexists.
    + apply IH. left. destruct (String.ltb sc sx); by intros [z [=]].
Qed.

Lemma py_max_from_raises cur rest e : py_max_from cur rest = Raise e → e = TypeError.
Proof.
  revert cur. induction rest as [|x rest IH]; intros cur; [done|].
  cbn [py_max_from]; eval_result.
  destruct (py_gt x cur) as [b|e'] eqn:Hgt; eval_result.
  - apply IH.
  - intros [= <-]. destruct x, cur; simpl in Hgt; congruence.
Qed.

Lemma py_add1_non_int v : ¬ is_int v → py_add1 v = Raise TypeError.
Proof. destruct v; [done| |done]. intros H. exfalso. apply H. by eexists. Qed.

(** The integers a collection carries under the id key, with 0 for an
    item that lacks the key, when every value found is an integer. *)
Lemma defaults_are_ints id_key (items : list (gmap string value)) :
  Forall (λ item, is_int (get_default item id_key (VInt 0))) items →
  ∃ ids, (λ item : gmap string value, get_default item id_key (VInt 0)) <$> items
           = VInt <$> ids ∧
         Forall2 (λ item z, get_default item id_key (VInt 0) = VInt z) items ids.
Proof.
  induction 1 as [|item items [z Hz] _ (ids & Heq & Hall)].
  - by exists [].
  - exists (z :: ids). split; [|by constructor].
    cbn [fmap list_fmap]. by rewrite Hz, Heq.
Qed.

Lemma next_id_rejects_non_integer_aux id_key (items : list (gmap string value)) :
  Exists (λ item, ¬ is_int (get_default item id_key (VInt 0))) items →
  _get_next_id items id_key = Raise TypeError.
Proof.
  intros Hbad. unfold _get_next_id.
  destruct items as [|item items]; [by apply Exists_nil in Hbad|].
  cbn [fmap list_fmap].
  pose proof (py_max_from_non_int
                ((λ item : gmap string value, get_default item id_key (VInt 0))
                   <$> items)
                (get_default item id_key (VInt 0))) as Hmax.
  destruct (py_max_from _ _) as [v|e] eqn:Hrun; eval_result.
  - apply py_add1_non_int, Hmax.
    apply Exists_cons in Hbad as [?|Hex]; [by left|right].
    apply Exists_fmap. exact Hex.
  - f_equal. by eapply py_max_from_raises.
Qed.

(** X6. [_get_next_id] raises [TypeError] as soon as one item of the
    collection has a value under the id key that is not an integer (a
    string, or [None]), and an add to such a collection raises and
    leaves the data manager as it was. *)
Theorem next_id_rejects_non_integer (id_key : string)
    (items : list (gmap string value)) :
  Exists (λ item, ¬ is_int (get_default item id_key (VInt 0))) items →
  _get_next_id items id_key = Raise TypeError ∧
  (∀ today now c dm,
     (add_target c).2 = id_key →
     data dm !! (add_target c).1 = Some items →
     run_add today now c dm = (Raise TypeError, dm)).
Proof.
  intros Hbad.
  pose proof (next_id_rejects_non_integer_aux id_key items Hbad) as Hid.
  split; [exact Hid|].
  intros today now c dm Ht Hk.
  destruct c; cbn [run_add add_target fst snd] in *; subst id_key;
    [unfold add_turbine | unfold add_part_instance
     | unfold add_installation_record | unfold add_maintenance_log];
    rewrite bind_M, (collection_Some _ _ _ Hk), bind_M; unfold lift;
    by rewrite Hid.
Qed.

Lemma next_id_rejects_non_integer_witness :
  _get_next_id [open_rec 1 1 1; <["installation_id" := VStr "2"]> (open_rec 2 2 1)]
    "installation_id" = Raise TypeError ∧
  run_add "2024-05-01" "2024-05-01T10:00:00"
    (AddInstallationRecord (VInt 1) (VInt 2) VNone)
    (sample_dm [open_rec 1 1 1; <["installation_id" := VStr "2"]> (open_rec 2 2 1)])
  = (Raise TypeError,
     sample_dm [open_rec 1 1 1; <["installation_id" := VStr "2"]> (open_rec 2 2 1)]).
Proof.
  destruct (next_id_rejects_non_integer "installation_id"
              [open_rec 1 1 1; <["installation_id" := VStr "2"]> (open_rec 2 2 1)])
    as [Hid Hadd]; [by_compute|].
  split; [exact Hid|].
  apply (Hadd "2024-05-01" "2024-05-01T10:00:00"
           (AddInstallationRecord (VInt 1) (VInt 2) VNone)); by_compute.
Defined.

(** X7. On a collection in which every value found under the id key
    is an integer, items without the key allowed, [_get_next_id]
    returns an integer greater than every id an item carries, so no
    item has it; an item without the id key counts as 0, which makes
    the result at least 1. *)
Theorem next_id_is_fresh (id_key : string) (items : list (gmap string value)) :
  Forall (λ item, is_int (get_default item id_key (VInt 0))) items →
  ∃ n, _get_next_id items id_key = Ok (VInt n) ∧
       (∀ item z, item ∈ items → item !! id_key = Some (VInt z) → (z < n)%Z) ∧
       (∀ item, item ∈ items → item !! id_key ≠ Some (VInt n)) ∧
       (∀ item, item ∈ items → item !! id_key = None → (1 ≤ n)%Z).
Proof.
  intros Hints.
  destruct (defaults_are_ints id_key items Hints) as (ids & Heq & Hall).
  assert (Hn : _get_next_id items id_key = Ok (VInt (next_of ids))).
  { unfold _get_next_id. rewrite Heq.
    destruct ids as [|z zs]; cbn [fmap list_fmap next_of]; [done|].
    by rewrite py_max_from_int. }
  assert (Hbound : ∀ item z, item ∈ items →
                     get_default item id_key (VInt 0) = VInt z → (z < next_of ids)%Z).
  { intros item z Hin Hz. apply next_of_above.
    apply list_elem_of_lookup in Hin as [i Hi].
    destruct (Forall2_lookup_l _ _ _ _ _ Hall Hi) as (z' & Hz' & Hitem).
    rewrite Hz in Hitem. injection Hitem as ->.
    by eapply list_elem_of_lookup_2. }
  exists (next_of ids). split_and!; [done| | |].
  - intros item z Hin Hz. apply (Hbound item z Hin).
    unfold get_default. by rewrite Hz.
  - intros item Hin Hz.
    pose proof (Hbound item (next_of ids) Hin) as H.
    unfold get_default in H. rewrite Hz in H. specialize (H eq_refl). lia.
  - intros item Hin Hz.
    pose proof (Hbound item 0%Z Hin) as H.
    unfold get_default in H. rewrite Hz in H. specialize (H eq_refl). lia.
Qed.

Lemma next_id_is_fresh_witness :
  ∃ n, _get_next_id [ {[ "turbine_id" := VInt (-5) ]}; sample_master ] "turbine_id"
         = Ok (VInt n) ∧
       (∀ item z, item ∈ [ {[ "turbine_id" := VInt (-5) ]}; sample_master ] →
                  item !! "turbine_id" = Some (VInt z) → (z < n)%Z) ∧
       (∀ item, item ∈ [ {[ "turbine_id" := VInt (-5) ]}; sample_master ] →
                item !! "turbine_id" ≠ Some (VInt n)) ∧
       (∀ item, item ∈ [ {[ "turbine_id" := VInt (-5) ]}; sample_master ] →
                item !! "turbine_id" = None → (1 ≤ n)%Z).
Proof.
  apply (next_id_is_fresh "turbine_id"
           [ {[ "turbine_id" := VInt (-5) ]}; sample_master ]).
  by_compute.
Defined.

(** ** Lookups by serial number *)

Lemma first_by_serial_typed items sn :
  all_have "serial_number" items →
  first_by_serial items sn =
  Ok (head (filter (λ r : gmap string value, r !! "serial_number" = Some sn) items)).
Proof.
  induction 1 as [|item items [s Hs] _ IH]; [done|].
  cbn [first_by_serial]; eval_result. rewrite (getitem_Some _ _ _ Hs); eval_result.
  destruct (py_eq s sn) eqn:Heq.
  - apply py_eq_true in Heq as ->. by rewrite filter_cons_True.
  - apply py_eq_false in Heq. rewrite filter_cons_False; [done|].
    rewrite Hs. by intros [= ?].
Qed.

Lemma first_by_serial_keyless pre (bad : gmap string value) post sn :
  all_have "serial_number" pre →
  Forall (λ r : gmap string value, r !! "serial_number" ≠ Some sn) pre →
  bad !! "serial_number" = None →
  first_by_serial (pre ++ bad :: post) sn = Raise (KeyError "serial_number").
Proof.
  intros Hkeys Hne Hbad. induction pre as [|item pre IH].
  - cbn [app first_by_serial]; eval_result. unfold getitem. by rewrite Hbad.
  - apply Forall_cons in Hkeys as [[s Hs] Hkeys].
    apply Forall_cons in Hne as [Hitem Hne].
    cbn [app first_by_serial]; eval_result.
    rewrite (getitem_Some _ _ _ Hs); eval_result.
    destruct (py_eq s sn) eqn:Heq; [|by apply IH].
    apply py_eq_true in Heq as ->. done.
Qed.

(** X8. On collections whose records all carry a serial number,
    [get_part_by_serial] and [get_turbine_by_serial] return the first
    record of the collection with that serial number, and [None] when
    there is none; duplicates of a serial number after the first are
    never returned.  A record without ["serial_number"] that the scan
    reaches before a match makes the lookup raise [KeyError]. *)
Theorem lookup_by_serial_first_match (d : gmap string (list (gmap string value)))
    (sn : value) :
  (all_have "serial_number" (get_all_part_instances d) →
     get_part_by_serial d sn =
     Ok (head (filter (λ r : gmap string value, r !! "serial_number" = Some sn)
                      (get_all_part_instances d)))) ∧
  (all_have "serial_number" (get_all_turbines d) →
     get_turbine_by_serial d sn =
     Ok (head (filter (λ r : gmap string value, r !! "serial_number" = Some sn)
                      (get_all_turbines d)))) ∧
  (∀ pre bad post,
     get_all_part_instances d = pre ++ bad :: post →
     all_have "serial_number" pre →
     Forall (λ r : gmap string value, r !! "serial_number" ≠ Some sn) pre →
     bad !! "serial_number" = None →
     get_part_by_serial d sn = Raise (KeyError "serial_number")).
Proof.
  split_and!.
  - apply first_by_serial_typed.
  - apply first_by_serial_typed.
  - intros pre bad post Hd Hkeys Hne Hbad. unfold get_part_by_serial.
    rewrite Hd. by apply first_by_serial_keyless.
Qed.

Lemma lookup_by_serial_first_match_witness :
  get_part_by_serial
    (<["part_instances" :=
         sample_instances ++ [ <["instance_id" := VInt 3]> sample_instance ]]>
       (sample_doc [] []))
    (VStr "PI-SN-001") = Ok (Some sample_instance) ∧
  get_turbine_by_serial (sample_doc [] []) (VStr "T-SN-404") = Ok None ∧
  get_part_by_serial
    (<["part_instances" := [ sample_master; sample_instance ]]> (sample_doc [] []))
    (VStr "PI-SN-001") = Raise (KeyError "serial_number").
Proof.
  split_and!.
  - rewrite (proj1 (lookup_by_serial_first_match
                      (<["part_instances" :=
                           sample_instances
                             ++ [ <["instance_id" := VInt 3]> sample_instance ]]>
                         (sample_doc [] []))
                      (VStr "PI-SN-001"))) by by_compute.
    by_compute.
  - rewrite (proj1 (proj2 (lookup_by_serial_first_match (sample_doc [] [])
                             (VStr "T-SN-404")))) by by_compute.
    by_compute.
  - apply (proj2 (proj2 (lookup_by_serial_first_match
                           (<["part_instances" := [ sample_master; sample_instance ]]>
                              (sample_doc [] []))
                           (VStr "PI-SN-001"))) [] sample_master [sample_instance]);
      by_compute.
Defined.

(** ** Registering a part instance or a turbine *)

Lemma head_filter_snoc {A} (P : A → Prop) `{∀ x, Decision (P x)} (l : list A) x :
  head (filter P (l ++ [x])) =
  match head (filter P l) with
  | Some y => Some y
  | None => if decide (P x) then Some x else None
  end.
Proof.
  rewrite filter_app. destruct (filter P l) as [|y l'] eqn:Hl; [|done].
  simpl. destruct (decide (P x)).
  - by rewrite filter_cons_True.
  - by rewrite filter_cons_False.
Qed.

Lemma get_part_by_serial_insert (d : gmap string (list (gmap string value))) items sn :
  get_part_by_serial (<["part_instances" := items]> d) sn = first_by_serial items sn.
Proof.
  unfold get_part_by_serial, get_all_part_instances, collection_or_empty.
  by rewrite lookup_insert_eq.
Qed.

(** X9. [add_part_instance] on a typed collection appends the record
    with the next id, the part number and the serial number.  A lookup
    of that serial number afterwards returns the new record when the
    serial number was free, and still the old first match when it was
    taken (a duplicate is stored and shadowed, not rejected); lookups of
    every other serial number give what they gave before. *)
Theorem add_part_instance_then_lookup (pn sn : value) (dm : DataManager)
    (items : list (gmap string value)) (ids : list Z) :
  data dm !! "part_instances" = Some items →
  id_values "instance_id" items ids →
  all_have "serial_number" items →
  let r : gmap string value :=
    {[ "instance_id" := VInt (next_of ids); "part_number" := pn;
       "serial_number" := sn ]} in
  let out := add_part_instance pn sn dm in
  out.1 = Ok r ∧
  data out.2 = <["part_instances" := items ++ [r]]> (data dm) ∧
  get_part_by_serial (data out.2) sn =
    Ok (Some (default r (head (filter (λ x : gmap string value,
                                         x !! "serial_number" = Some sn) items)))) ∧
  (∀ sn', sn' ≠ sn →
          get_part_by_serial (data out.2) sn' = get_part_by_serial (data dm) sn').
Proof.
  intros Hk Hids Hkeys r out.
  assert (Hrun : out = (Ok r, mkDataManager
                                (<["part_instances" := items ++ [r]]> (data dm))
                                (Json (<["part_instances" := items ++ [r]]> (data dm)))
                                ((trace dm ++ [Saved])
                                   ++ [Printed ("Added new part instance: "
                                                +:+ py_str sn)]))).
  { subst out. unfold add_part_instance.
    rewrite bind_M, (collection_Some _ _ _ Hk), bind_M. unfold lift.
    rewrite (get_next_id_typed _ _ _ Hids). eval_M.
    rewrite (alter_alt_Some _ _ _ _ Hk). do 2 f_equal.
    all: subst r; apply map_eq; intros k; by rewrite !lookup_insert. }
  assert (Hkeys' : all_have "serial_number" (items ++ [r])).
  { eapply all_have_snoc; [done|]. subst r. by simplify_map_eq. }
  rewrite Hrun. cbn [fst snd data]. split_and!; [done|done| |].
  - rewrite get_part_by_serial_insert, (first_by_serial_typed _ _ Hkeys').
    rewrite head_filter_snoc. f_equal.
    destruct (head (filter _ items)); [done|].
    rewrite decide_True; [done|]. subst r. by simplify_map_eq.
  - intros sn' Hne.
    rewrite get_part_by_serial_insert, (first_by_serial_typed _ _ Hkeys').
    unfold get_part_by_serial, get_all_part_instances, collection_or_empty.
    rewrite Hk. cbn [default]. rewrite (first_by_serial_typed _ _ Hkeys).
    rewrite head_filter_snoc. f_equal.
    destruct (head (filter _ items)); [done|].
    rewrite decide_False; [done|]. subst r. simplify_map_eq. by intros [= ?].
Qed.

Lemma add_part_instance_then_lookup_witness :
  (add_part_instance (VStr "PN-1001") (VStr "PI-SN-001") (sample_dm [])).1
    = Ok {[ "instance_id" := VInt 3; "part_number" := VStr "PN-1001";
            "serial_number" := VStr "PI-SN-001" ]} ∧
  get_part_by_serial
    (data (add_part_instance (VStr "PN-1001") (VStr "PI-SN-001") (sample_dm [])).2)
    (VStr "PI-SN-001") = Ok (Some sample_instance) ∧
  get_part_by_serial
    (data (add_part_instance (VStr "PN-1001") (VStr "PI-SN-001") (sample_dm [])).2)
    (VStr "PI-SN-002")
  = get_part_by_serial (data (sample_dm [])) (VStr "PI-SN-002").
Proof.
  destruct (add_part_instance_then_lookup (VStr "PN-1001") (VStr "PI-SN-001")
              (sample_dm []) sample_instances [1; 2]%Z)
    as (Hret & _ & Hsame & Hother); [by_compute..|].
  split_and!.
  - exact Hret.
  - etrans; [exact Hsame|]. by_compute.
  - apply Hother. by_compute.
Defined.

(** ** What a successful install writes *)

Lemma install_part_exact today p t date dm inst turbine iid tid h ids :
  get_part_by_serial (data dm) p = Ok (Some inst) →
  get_turbine_by_serial (data dm) t = Ok (Some turbine) →
  inst !! "instance_id" = Some iid →
  turbine !! "turbine_id" = Some tid →
  data dm !! "installation_history" = Some h →
  already_installed h inst = Ok false →
  id_values "installation_id" h ids →
  let r : gmap string value :=
    {[ "installation_id" := VInt (next_of ids); "instance_id" := iid;
       "turbine_id" := tid;
       "installation_date" := if decide (date = VNone) then VStr today else date ]} in
  install_part today p t date dm =
    (Ok (), mkDataManager (<["installation_history" := h ++ [r]]> (data dm))
              (Json (<["installation_history" := h ++ [r]]> (data dm)))
              ((trace dm ++ [Saved])
                 ++ [Printed ("Added installation record for instance "
                              +:+ py_str iid +:+ " in turbine " +:+ py_str tid
                              +:+ ".")])).
Proof.
  intros Hp Ht Hi Htid Hh Hscan Hids r. unfold install_part.
  rewrite bind_M; cbn [read]. rewrite Hp, (truthy_first_by_serial _ _ _ Hp).
  rewrite bind_M; cbn [read]. rewrite Ht, (truthy_first_by_serial _ _ _ Ht).
  rewrite bind_M; cbn [read]. rewrite (history_lookup _ _ Hh), Hscan.
  rewrite bind_M; cbn [lift]. rewrite (getitem_Some _ _ _ Hi).
  rewrite bind_M; cbn [lift]. rewrite (getitem_Some _ _ _ Htid).
  rewrite bind_M. unfold add_installation_record.
  rewrite bind_M, (collection_Some _ _ _ Hh), bind_M. unfold lift.
  rewrite (get_next_id_typed _ _ _ Hids). eval_M.
  rewrite (alter_alt_Some _ _ _ _ Hh).
  assert (<["installation_id" := VInt (next_of ids)]>
            (<["instance_id" := iid]> (<["turbine_id" := tid]>
              (<["installation_date" :=
                   if decide (date = VNone) then VStr today else date]> ∅))) = r)
    as ->; [|done].
  subst r. by rewrite insert_empty.
Qed.

(** X10. When part and turbine are found, the history has no open
    record of the part and its installation ids are integers,
    [install_part] appends exactly one record to the installation
    history: the next installation id, the instance id of the part, the
    turbine id of the turbine, the given installation date or today's
    date when none is given, and no removal date.  It saves the new
    document, prints the confirmation after the save and returns [None]. *)
Theorem install_appends_exact_record today (p t date : value) (dm : DataManager)
    (inst turbine : gmap string value) (iid tid : value)
    (h : list (gmap string value)) (ids : list Z) :
  get_part_by_serial (data dm) p = Ok (Some inst) →
  get_turbine_by_serial (data dm) t = Ok (Some turbine) →
  inst !! "instance_id" = Some iid →
  turbine !! "turbine_id" = Some tid →
  data dm !! "installation_history" = Some h →
  all_have "instance_id" h →
  Forall (λ x, ¬ open_for iid x) h →
  id_values "installation_id" h ids →
  let r : gmap string value :=
    {[ "installation_id" := VInt (next_of ids); "instance_id" := iid;
       "turbine_id" := tid;
       "installation_date" := if decide (date = VNone) then VStr today else date ]} in
  r !! "removal_date" = None ∧
  install_part today p t date dm =
    (Ok (), mkDataManager (<["installation_history" := h ++ [r]]> (data dm))
              (Json (<["installation_history" := h ++ [r]]> (data dm)))
              ((trace dm ++ [Saved])
                 ++ [Printed ("Added installation record for instance "
                              +:+ py_str iid +:+ " in turbine " +:+ py_str tid
                              +:+ ".")])).
Proof.
  intros Hp Ht Hi Htid Hh Hkeys Hclosed Hids r. split.
  - subst r. by simplify_map_eq.
  - apply (install_part_exact today p t date dm inst turbine iid tid h ids);
      try done.
    by apply (already_installed_none h inst iid).
Qed.

Lemma install_appends_exact_record_witness :
  data (install_part "2024-05-01" (VStr "PI-SN-001") (VStr "T-SN-102") VNone
          (sample_dm [closed_rec 4 1 1; open_rec 7 2 1])).2 =
  sample_doc
    [closed_rec 4 1 1; open_rec 7 2 1;
     {[ "installation_id" := VInt 8; "instance_id" := VInt 1;
        "turbine_id" := VInt 2; "installation_date" := VStr "2024-05-01" ]}] [].
Proof.
  destruct (install_appends_exact_record "2024-05-01" (VStr "PI-SN-001")
              (VStr "T-SN-102") VNone (sample_dm [closed_rec 4 1 1; open_rec 7 2 1])
              sample_instance
              {[ "turbine_id" := VInt 2; "serial_number" := VStr "T-SN-102";
                 "frame_type" := VStr "GE 1.5sle";
                 "location" := VStr "Wind Farm Beta" ]}
              (VInt 1) (VInt 2) [closed_rec 4 1 1; open_rec 7 2 1] [4; 7]%Z)
    as [_ Hrun]; [by_compute..|].
  rewrite Hrun. cbn [snd data]. by_compute.
Defined.

(** ** Install, remove, install again *)

Lemma foldl_max_snoc zs z m : foldl Z.max z (zs ++ [m]) = Z.max (foldl Z.max z zs) m.
Proof. by rewrite foldl_app. Qed.

Lemma next_of_snoc ids : next_of (ids ++ [next_of ids]) = (next_of ids + 1)%Z.
Proof.
  destruct ids as [|z zs]; [done|].
  cbn [app next_of]. rewrite foldl_max_snoc. lia.
Qed.

Lemma get_all_maintenance_logs_history (d : gmap string (list (gmap string value))) h :
  get_all_maintenance_logs (<["installation_history" := h]> d)
  = get_all_maintenance_logs d.
Proof.
  unfold get_all_maintenance_logs, collection_or_empty. by rewrite lookup_insert_ne.
Qed.

Lemma not_record_not_open iid (h : list (gmap string value)) :
  Forall (λ x, ¬ record_of iid x) h → Forall (λ x, ¬ open_for iid x) h.
Proof.
  intros H. eapply Forall_impl; [exact H|]. intros x Hx [Hid _]. by apply Hx.
Qed.

Lemma filter_none {A} (P : A → Prop) `{∀ x, Decision (P x)} (l : list A) :
  Forall (λ x, ¬ P x) l → filter P l = [].
Proof.
  induction 1 as [|x l Hx _ IH]; [done|]. by rewrite filter_cons_False.
Qed.

(** X11. For a part with no installation record yet: after installing
    it in one turbine, removing it and installing it in a second
    turbine, [get_part_lifecycle] returns exactly two installation
    records for it, in this order: the first names the first turbine and
    has the removal date, the second names the second turbine and has
    none; their installation ids are consecutive. *)
Theorem lifecycle_after_reinstall today (p t1 d1 rd t2 d2 : value) (dm : DataManager)
    (inst inst0 turbine1 turbine2 : gmap string value) (iid tid1 tid2 : value)
    (h : list (gmap string value)) (ids : list Z) :
  get_part_by_serial (data dm) p = Ok (Some inst) →
  inst !! "instance_id" = Some iid →
  first_by_instance_id (get_all_part_instances (data dm)) iid = Ok (Some inst0) →
  get_turbine_by_serial (data dm) t1 = Ok (Some turbine1) →
  turbine1 !! "turbine_id" = Some tid1 →
  get_turbine_by_serial (data dm) t2 = Ok (Some turbine2) →
  turbine2 !! "turbine_id" = Some tid2 →
  data dm !! "installation_history" = Some h →
  all_have "instance_id" h →
  Forall (λ x, ¬ record_of iid x) h →
  id_values "installation_id" h ids →
  all_have "instance_id" (get_all_maintenance_logs (data dm)) →
  get_part_lifecycle (data (install_remove_install today p t1 d1 rd t2 d2 dm)) iid =
  Ok (LDict
        {[ "part_details" := FRecord inst0;
           "installation_history" :=
             FList [ <["removal_date" := date_or_today today rd]>
                       {[ "installation_id" := VInt (next_of ids);
                          "instance_id" := iid; "turbine_id" := tid1;
                          "installation_date" := date_or_today today d1 ]};
                     {[ "installation_id" := VInt (next_of ids + 1);
                        "instance_id" := iid; "turbine_id" := tid2;
                        "installation_date" := date_or_today today d2 ]} ];
           "maintenance_log" :=
             FList (filter (record_of iid) (get_all_maintenance_logs (data dm))) ]}).
Proof.
  intros Hp Hi Hfind Ht1 Htid1 Ht2 Htid2 Hh Hkeys Hnone Hids Hlogs.
  pose proof (not_record_not_open _ _ Hnone) as Hclosed.
  unfold install_remove_install, date_or_today.
  set (ra := ({[ "installation_id" := VInt (next_of ids); "instance_id" := iid;
                 "turbine_id" := tid1;
                 "installation_date" :=
                   if decide (d1 = VNone) then VStr today else d1 ]}
              : gmap string value)).
  set (rb := ({[ "installation_id" := VInt (next_of ids + 1); "instance_id" := iid;
                 "turbine_id" := tid2;
                 "installation_date" :=
                   if decide (d2 = VNone) then VStr today else d2 ]}
              : gmap string value)).
  set (rdv := if decide (rd = VNone) then VStr today else rd).
  assert (Hra : open_for iid ra) by (subst ra; split; by simplify_map_eq).
  pose proof (install_part_exact today p t1 d1 dm inst turbine1 iid tid1 h ids
                Hp Ht1 Hi Htid1 Hh
                (already_installed_none h inst iid Hi Hkeys Hclosed) Hids) as H1.
  cbn zeta in H1. fold ra in H1. rewrite H1. cbn [snd].
  set (dm1 := mkDataManager _ _ _).
  pose proof (remove_part_removes today p rd dm1 inst iid h ra []) as H2.
  cbn zeta in H2. fold rdv in H2. rewrite H2; subst dm1; cbn [snd data];
    [|by rewrite get_part_by_serial_history|done|by rewrite lookup_insert_eq
     |done|done|done].
  rewrite insert_insert_eq.
  set (ra' := <["removal_date" := rdv]> ra).
  set (dm2 := mkDataManager _ _ _).
  assert (Hkeys2 : all_have "instance_id" (h ++ [ra'])).
  { eapply all_have_snoc; [done|]. subst ra' ra. by simplify_map_eq. }
  assert (Hclosed2 : Forall (λ x, ¬ open_for iid x) (h ++ [ra'])).
  { apply Forall_app. split; [done|]. constructor; [|done].
    apply closed_after_removal. }
  assert (Hids2 : id_values "installation_id" (h ++ [ra']) (ids ++ [next_of ids])).
  { apply id_values_snoc; [done|]. subst ra' ra. by simplify_map_eq. }
  pose proof (install_part_exact today p t2 d2 dm2 inst turbine2 iid tid2
                (h ++ [ra']) (ids ++ [next_of ids])) as H3.
  cbn zeta in H3. rewrite next_of_snoc in H3. fold rb in H3.
  rewrite H3; subst dm2; cbn [snd data];
    [|by rewrite get_part_by_serial_history|by rewrite get_turbine_by_serial_history
     |done|done|by rewrite lookup_insert_eq
     |by apply (already_installed_none _ inst iid)|done].
  rewrite insert_insert_eq.
  rewrite (get_part_lifecycle_found _ iid inst0).
  - rewrite history_insert, get_all_maintenance_logs_history.
    rewrite !filter_app, (filter_none (record_of iid) h Hnone), app_nil_l.
    rewrite !filter_cons_True, filter_nil.
    + by rewrite !insert_empty.
    + subst rb. unfold record_of. by simplify_map_eq.
    + subst ra' ra. unfold record_of. by simplify_map_eq.
  - by rewrite get_all_part_instances_history.
  - rewrite history_insert. eapply all_have_snoc; [done|].
    subst rb. by simplify_map_eq.
  - by rewrite get_all_maintenance_logs_history.
Qed.

Lemma lifecycle_after_reinstall_witness :
  get_part_lifecycle
    (data (install_remove_install "2024-05-01" (VStr "PI-SN-001") (VStr "T-SN-101")
             (VStr "2024-04-02") VNone (VStr "T-SN-102") VNone
             (sample_dm [open_rec 5 2 1]))) (VInt 1) =
  Ok (LDict
        {[ "part_details" := FRecord sample_instance;
           "installation_history" :=
             FList [ <["removal_date" := VStr "2024-05-01"]>
                       {[ "installation_id" := VInt 6; "instance_id" := VInt 1;
                          "turbine_id" := VInt 1;
                          "installation_date" := VStr "2024-04-02" ]};
                     {[ "installation_id" := VInt 7; "instance_id" := VInt 1;
                        "turbine_id" := VInt 2;
                        "installation_date" := VStr "2024-05-01" ]} ];
           "maintenance_log" := FList [] ]}).
Proof.
  etrans.
  - apply (lifecycle_after_reinstall "2024-05-01" (VStr "PI-SN-001") (VStr "T-SN-101")
             (VStr "2024-04-02") VNone (VStr "T-SN-102") VNone
             (sample_dm [open_rec 5 2 1]) sample_instance sample_instance
             {[ "turbine_id" := VInt 1; "serial_number" := VStr "T-SN-101";
                "frame_type" := VStr "GE 1.5sle";
                "location" := VStr "Wind Farm Alpha" ]}
             {[ "turbine_id" := VInt 2; "serial_number" := VStr "T-SN-102";
                "frame_type" := VStr "GE 1.5sle";
                "location" := VStr "Wind Farm Beta" ]}
             (VInt 1) (VInt 1) (VInt 2) [open_rec 5 2 1] [5]%Z); by_compute.
  - by_compute.
Defined.

(** ** The importer *)

(** X14. The importer's error paths, in the order they are tried: a
    missing file is reported whatever its name; then an extension other
    than .csv, .xls and .xlsx; then a file the reader rejects, with the
    reader's message; then the first of part_number, serial_number and
    manufacture_date that the table lacks.  Each returns a summary with
    zero counts and leaves the data manager untouched, nothing printed. *)
Theorem import_error_paths str_of_exn (file_path : string) (dm : DataManager) :
  import_from_file str_of_exn file_path Absent dm =
    (Ok (import_summary 0 0 (VStr "File not found.")), dm) ∧
  (∀ f, f ≠ Absent →
        ends_with ".csv" file_path || ends_with ".xls" file_path
          || ends_with ".xlsx" file_path = false →
        import_from_file str_of_exn file_path f dm =
          (Ok (import_summary 0 0 (VStr "Unsupported file type.")), dm)) ∧
  (∀ msg,
     ends_with ".csv" file_path || ends_with ".xls" file_path
       || ends_with ".xlsx" file_path = true →
     import_from_file str_of_exn file_path (Unreadable msg) dm =
       (Ok (import_summary 0 0 (VStr ("Failed to read file: " +:+ msg))), dm)) ∧
  (∀ columns rows pre col post,
     ends_with ".csv" file_path || ends_with ".xls" file_path
       || ends_with ".xlsx" file_path = true →
     required_columns = pre ++ col :: post →
     Forall (λ c, c ∈ columns) pre →
     col ∉ columns →
     import_from_file str_of_exn file_path (Table columns rows) dm =
       (Ok (import_summary 0 0 (VStr ("Missing required column: " +:+ col))), dm)).
Proof.
  split_and!.
  - done.
  - intros f Hf Hext. unfold import_from_file. rewrite Hext. by destruct f.
  - intros msg Hext. unfold import_from_file. by rewrite Hext.
  - intros columns rows pre col post Hext Hreq Hpre Hcol.
    unfold import_from_file. rewrite Hext, Hreq.
    assert (first_missing_column (pre ++ col :: post) columns = Some col) as ->;
      [|done].
    clear Hreq. induction Hpre as [|c pre Hc _ IH].
    + cbn [app first_missing_column]. by rewrite bool_decide_eq_false_2.
    + cbn [app first_missing_column]. by rewrite bool_decide_eq_true_2.
Qed.

Lemma import_error_paths_witness :
  import_from_file sample_str_of_exn "parts.txt" (Table sample_columns sample_rows)
    (sample_dm [])
    = (Ok (import_summary 0 0 (VStr "Unsupported file type.")), sample_dm []) ∧
  import_from_file sample_str_of_exn "parts.xlsx" (Unreadable "Bad zip file")
    (sample_dm [])
    = (Ok (import_summary 0 0 (VStr "Failed to read file: Bad zip file")),
       sample_dm []) ∧
  import_from_file sample_str_of_exn "parts.xls"
    (Table ["part_number"; "extra_column"] sample_rows) (sample_dm [])
    = (Ok (import_summary 0 0 (VStr "Missing required column: serial_number")),
       sample_dm []).
Proof.
  split_and!.
  - apply (proj1 (proj2 (import_error_paths sample_str_of_exn "parts.txt"
                           (sample_dm [])))); [done|by_compute].
  - apply (proj1 (proj2 (proj2 (import_error_paths sample_str_of_exn "parts.xlsx"
                                  (sample_dm []))))). by_compute.
  - apply (proj2 (proj2 (proj2 (import_error_paths sample_str_of_exn "parts.xls"
                                  (sample_dm []))))
             ["part_number"; "extra_column"] sample_rows ["part_number"]
             "serial_number" ["manufacture_date"]); by_compute.
Defined.

(** ** The lifecycle view *)

Lemma first_by_instance_id_first pre (inst : gmap string value) post iid :
  all_have "instance_id" pre →
  Forall (λ r, ¬ record_of iid r) pre →
  record_of iid inst →
  first_by_instance_id (pre ++ inst :: post) iid = Ok (Some inst).
Proof.
  intros Hkeys Hnone Hinst. induction pre as [|x pre IH].
  - cbn [app first_by_instance_id]; eval_result.
    rewrite (getitem_Some _ _ _ Hinst); eval_result.
    by rewrite (proj2 (py_eq_true iid iid)).
  - apply Forall_cons in Hkeys as [[a Ha] Hkeys].
    apply Forall_cons in Hnone as [Hx Hnone].
    cbn [app first_by_instance_id]; eval_result.
    rewrite (getitem_Some _ _ _ Ha); eval_result.
    destruct (py_eq a iid) eqn:Heq; [|by apply IH].
    apply py_eq_true in Heq as ->. done.
Qed.

(** X15. [get_part_lifecycle] on typed collections: when no part
    instance has the id it returns the text "Part instance not found.";
    otherwise it returns a dict of exactly three entries, the first part
    instance with that id, the installation records of the id and the
    maintenance logs of the id, both in collection order and with open
    and closed records alike. *)
Theorem lifecycle_view_contents (d : gmap string (list (gmap string value)))
    (iid : value) :
  all_have "instance_id" (get_all_part_instances d) →
  all_have "instance_id" (get_all_installation_history d) →
  all_have "instance_id" (get_all_maintenance_logs d) →
  (Forall (λ r, ¬ record_of iid r) (get_all_part_instances d) →
     get_part_lifecycle d iid = Ok (LMessage "Part instance not found.")) ∧
  (∀ pre inst post,
     get_all_part_instances d = pre ++ inst :: post →
     Forall (λ r, ¬ record_of iid r) pre →
     record_of iid inst →
     get_part_lifecycle d iid =
     Ok (LDict
           {[ "part_details" := FRecord inst;
              "installation_history" :=
                FList (filter (record_of iid) (get_all_installation_history d));
              "maintenance_log" :=
                FList (filter (record_of iid) (get_all_maintenance_logs d)) ]})).
Proof.
  intros Hpi Hh Hl. split.
  - intros Hnone. by apply get_part_lifecycle_not_found.
  - intros pre inst post Hd Hpre Hinst.
    rewrite (get_part_lifecycle_found d iid inst); [by rewrite insert_empty| |done|done].
    rewrite Hd. apply first_by_instance_id_first; [|done|done].
    rewrite Hd in Hpi. by apply Forall_app in Hpi as [? _].
Qed.

Lemma lifecycle_view_contents_witness :
  get_part_lifecycle
    (sample_doc [closed_rec 1 1 1; open_rec 2 2 1; open_rec 3 1 2] sample_logs)
    (VInt 9) = Ok (LMessage "Part instance not found.") ∧
  get_part_lifecycle
    (sample_doc [closed_rec 1 1 1; open_rec 2 2 1; open_rec 3 1 2] sample_logs)
    (VInt 1) =
  Ok (LDict
        {[ "part_details" := FRecord sample_instance;
           "installation_history" := FList [closed_rec 1 1 1; open_rec 3 1 2];
           "maintenance_log" := FList [sample_log] ]}).
Proof.
  destruct (lifecycle_view_contents
              (sample_doc [closed_rec 1 1 1; open_rec 2 2 1; open_rec 3 1 2]
                 sample_logs) (VInt 9)) as [Hnone _]; [by_compute..|].
  destruct (lifecycle_view_contents
              (sample_doc [closed_rec 1 1 1; open_rec 2 2 1; open_rec 3 1 2]
                 sample_logs) (VInt 1)) as [_ Hfound]; [by_compute..|].
  split.
  - apply Hnone. by_compute.
  - etrans.
    + apply (Hfound [] sample_instance
               [ {[ "instance_id" := VInt 2; "part_number" := VStr "PN-1001";
                    "serial_number" := VStr "PI-SN-002" ]} ]); by_compute.
    + by_compute.
Defined.

(** ** [remove_part] on the store a missing file gives *)

Lemma run_operation_keeps_missing today now op dm k :
  data dm !! k = None → data (run_operation today now op dm) !! k = None.
Proof.
  intros Hk.
  destruct (run_operation_outcome today now op dm)
    as [(tr & -> & _)|(k' & old & new & line & Hk' & _ & ->)]; [done|].
  cbn [data]. rewrite lookup_insert_ne; [done|]. intros ->. by rewrite Hk in Hk'.
Qed.

Lemma run_operations_keep_missing today now k ops : ∀ dm,
  data dm !! k = None →
  Forall (λ dm', data dm' !! k = None) (run_operations today now ops dm).
Proof.
  induction ops as [|op ops IH]; intros dm Hk; [by constructor|].
  cbn [run_operations].
  pose proof (run_operation_keeps_missing today now op dm k Hk) as Hk'.
  constructor; [exact Hk'|by apply IH].
Qed.

Lemma remove_part_without_history today p date dm inst :
  data dm !! "installation_history" = None →
  get_part_by_serial (data dm) p = Ok (Some inst) →
  remove_part today p date dm = (Raise (KeyError "installation_history"), dm).
Proof.
  intros Hk Hp. unfold remove_part.
  rewrite bind_M; cbn [read]. rewrite Hp, (truthy_first_by_serial _ _ _ Hp).
  rewrite bind_M; unfold collection. by rewrite Hk.
Qed.

(** C3. [remove_part] on the store that [load_data] creates for a
    missing file, after one part instance was added to it: the part
    resolves and has no open installation record, and the call raises
    [KeyError] for ["installation_history"] where the claim has it
    report NoActiveInstallation.  The same holds in every state that
    adds, installs and removes reach from that store, for every part
    serial number that resolves: no operation creates the collection. *)
Theorem remove_part_raises_on_fresh_store :
  get_part_by_serial (data fresh_with_part) (VStr "PI-SN-001") =
    Ok (Some {[ "instance_id" := VInt 1; "part_number" := VStr "PN-1001";
                "serial_number" := VStr "PI-SN-001" ]}) ∧
  open_count (data fresh_with_part) (VInt 1) = 0 ∧
  remove_part "2024-05-01" (VStr "PI-SN-001") VNone fresh_with_part =
    (Raise (KeyError "installation_history"), fresh_with_part) ∧
  (∀ today now ops,
     Forall (λ dm', ∀ p date inst,
               get_part_by_serial (data dm') p = Ok (Some inst) →
               remove_part today p date dm' =
                 (Raise (KeyError "installation_history"), dm'))
            (run_operations today now ops fresh_store)).
Proof.
  split_and!; [by_compute..|].
  intros today now ops.
  assert (data fresh_store !! "installation_history" = None) as Hk by by_compute.
  eapply Forall_impl;
    [exact (run_operations_keep_missing today now _ ops fresh_store Hk)|].
  intros dm' Hk' p date inst Hp.
  by apply (remove_part_without_history today p date dm' inst).
Qed.
